(** * etl_daily: fetch, normalise and load of CoinGecko market snapshots

    A shallow embedding of [src/etl/etl_daily.py].  Python values, pandas
    frames, the HTTP endpoint and the Postgres store are modelled as plain
    data; every function of the module is a total Rocq function that
    returns either its value or the exception the Python code raises. *)

From stdpp Require Import gmap strings list fin_maps.
From Stdlib Require Import ZArith QArith Lia.

Open Scope string_scope.
Open Scope list_scope.
Open Scope Z_scope.

(** ** Exceptions and results *)

(** The exceptions the module's statements raise.  [FetchError] is the
    wrapper the specification names; no statement of the source builds it. *)
Inductive exn : Type :=
| RequestException (msg : string)     (* session.get: connection error, timeout *)
| HTTPError (status : Z)              (* resp.raise_for_status() *)
| JSONDecodeError                     (* resp.json() on a body that is not JSON *)
| ValueError (msg : string)           (* raise ValueError(...); time.sleep on a negative duration *)
| OverflowError (msg : string)        (* time.sleep on a duration beyond the clock's range *)
| IndexError (msg : string)           (* psycopg2: fewer parameters than placeholders *)
| TypeError (msg : string)            (* psycopg2: more parameters than placeholders *)
| KeyError (key : string)             (* df[key] on a column that is not there *)
| ProgrammingError (msg : string)     (* psycopg2: statement refused *)
| IntegrityError (msg : string)       (* psycopg2: constraint violated *)
| DataError (msg : string)            (* psycopg2: value refused by a column type *)
| FetchError (cause : exn).

Inductive result (A : Type) : Type :=
| Ok (a : A)
| Raise (e : exn).
Arguments Ok {A} a.
Arguments Raise {A} e.

(** Sequencing: an exception ends the computation ([x ← r; k] below). *)
#[global] Instance result_bind : MBind result := fun A B k r =>
  match r with
  | Ok a => k a
  | Raise e => Raise e
  end.

(** ** The Fetcher: [fetch_coingecko_markets] *)

Module Fetcher.

(** What one [session.get] gives back. *)
Inductive body (item : Type) : Type :=
| NotJson                              (* resp.json() raises *)
| JsonList (data : list item)          (* a JSON array *)
| JsonOther.                           (* any other JSON value *)
Arguments NotJson {item}.
Arguments JsonList {item} data.
Arguments JsonOther {item}.

Inductive response (item : Type) : Type :=
| NoResponse (msg : string)            (* session.get raises *)
| Response (status : Z) (b : body item).
Arguments NoResponse {item} msg.
Arguments Response {item} status b.

(** The query parameters of the request (the constant ones are left out). *)
Record request : Type := {
  vs_currency : string;
  per_page : Z;
  page : Z
}.

(** The lines written to the logger and the other observable effects. *)
Inductive event : Type :=
| LogFetching (page per_page attempt_no : Z)   (* logger.info, line 62 *)
| Get (r : request)                            (* session.get, line 63 *)
| LogFetched (n : nat)                         (* logger.info, line 68 *)
| LogFailed (attempt_no : Z) (e : exn)         (* logger.warning, line 72 *)
| Sleep (seconds : Q)                          (* sleep, line 74, when it returns *)
| LogMaxRetries.                               (* logger.error, line 76 *)

(** How a call of the function ends. *)
Inductive outcome (item : Type) : Type :=
| Returned (data : list item)          (* return data *)
| ReturnedNone                         (* the loop ends, the function falls off its end *)
| Raised (e : exn).                    (* the bare raise of line 77, or what sleep raises *)
Arguments Returned {item} data.
Arguments ReturnedNone {item}.
Arguments Raised {item} e.

Record run (item : Type) : Type := {
  outcome_of : outcome item;
  gets : nat;                          (* HTTP requests sent *)
  trace : list event
}.
Arguments outcome_of {item} r.
Arguments gets {item} r.
Arguments trace {item} r.

(** [resp.raise_for_status()]: a 4xx or 5xx status raises. *)
Definition raise_for_status (status : Z) : result unit :=
  if (400 <=? status) && (status <? 600) then Raise (HTTPError status) else Ok tt.

(** Lines 63-67: the body of the [try] up to the shape test. *)
Definition attempt_body {item : Type} (r : response item) : result (list item) :=
  match r with
  | NoResponse msg => Raise (RequestException msg)
  | Response status b =>
      _ ← raise_for_status status;
      match b with
      | NotJson => Raise JSONDecodeError
      | JsonList data => Ok data
      | JsonOther => Raise (ValueError "unexpected response format")
      end
  end.

(** [time.sleep(d)]: the duration is converted to the clock's unit first,
    which fails when it is out of the clock's range, whatever its sign;
    then a negative duration is refused.  [sleep_max] is the longest
    duration the platform's clock takes (about 292 years where it counts
    nanoseconds in 64 bits). *)
Definition time_sleep (sleep_max d : Q) : result unit :=
  if negb (Qle_bool (- sleep_max) d && Qle_bool d sleep_max) then
    Raise (OverflowError "timestamp too large to convert to C _PyTime_t")
  else if negb (Qle_bool 0 d) then
    Raise (ValueError "sleep length must be non-negative")
  else Ok tt.

Section Loop.
Context {item : Type}.
Variable sleep_max : Q.
(** The endpoint: the answer to the [n]-th request of this call (from 0). *)
Variable server : request -> nat -> response item.
Variable req : request.
Variable max_retries : Z.
Variable backoff : Q.

(** The [while attempt < max_retries] loop (lines 59-77), with the logger
    set up as [main] does; [fuel] bounds the iterations, [None] means the
    bound was too small.  An exception of [sleep] is raised inside the
    handler of line 70, where nothing catches it: it ends the call. *)
Fixpoint fetch_loop (fuel : nat) (attempt : Z) (n : nat) (tr : list event)
  : option (run item) :=
  match fuel with
  | O => None
  | S fuel' =>
      if attempt <? max_retries then
        let tr := tr ++ [LogFetching (page req) (per_page req) (attempt + 1); Get req] in
        match attempt_body (server req n) with
        | Ok data =>
            Some {| outcome_of := Returned data; gets := S n;
                    trace := tr ++ [LogFetched (length data)] |}
        | Raise e =>
            let attempt := attempt + 1 in
            let tr := tr ++ [LogFailed attempt e] in
            if attempt <? max_retries then
              match time_sleep sleep_max (backoff * inject_Z attempt) with
              | Ok _ =>
                  fetch_loop fuel' attempt (S n) (tr ++ [Sleep (backoff * inject_Z attempt)%Q])
              | Raise e' =>
                  Some {| outcome_of := Raised e'; gets := S n; trace := tr |}
              end
            else
              Some {| outcome_of := Raised e; gets := S n;
                      trace := tr ++ [LogMaxRetries] |}
        end
      else
        Some {| outcome_of := ReturnedNone; gets := n; trace := tr |}
  end.

Definition fetch_coingecko_markets : option (run item) :=
  fetch_loop (S (Z.to_nat max_retries)) 0 0 [].

End Loop.

End Fetcher.

(** ** Python values and pandas frames *)

(** Numbers and timestamps are kept abstract, together with the three
    conversions pandas performs on scalars; everything below holds for any
    choice of them. *)
Class Scalars : Type := {
  number : Type;
  timestamp : Type;
  number_eq_dec :: EqDecision number;
  timestamp_eq_dec :: EqDecision timestamp;
  str_to_number : string -> option number;         (* pd.to_numeric on a str *)
  str_to_datetime : string -> option timestamp;    (* pd.to_datetime(utc=True) on a str *)
  number_to_datetime : number -> option timestamp  (* pd.to_datetime(utc=True) on a number *)
}.

Module Pandas.
Section WithScalars.
Context `{Scalars}.

(** A value of a decoded JSON object, as far as the whitelisted fields of
    the endpoint go: null, a number or a string (nested objects, which
    json_normalize would flatten into dotted columns, are left out). *)
Inductive json : Type :=
| JNull
| JNumber (n : number)
| JString (s : string).

(** A raw record: a Python dict, in insertion order. *)
Definition record : Type := list (string * json).

Fixpoint dict_get (k : string) (r : record) : option json :=
  match r with
  | [] => None
  | (k', v) :: r' => if decide (k = k') then Some v else dict_get k r'
  end.

(** What a frame holds in a cell. *)
Inductive cell : Type :=
| NaN                     (* float('nan'): the missing marker of json_normalize and to_numeric *)
| NaT                     (* the missing marker of to_datetime *)
| PyNone                  (* None *)
| Num (n : number)
| Str (s : string)
| Ts (t : timestamp).

#[global] Instance json_eq_dec : EqDecision json.
Proof. solve_decision. Defined.
#[global] Instance cell_eq_dec : EqDecision cell.
Proof. solve_decision. Defined.

(** [pd.isna] on a scalar. *)
Definition isna (v : cell) : bool :=
  match v with
  | NaN | NaT | PyNone => true
  | Num _ | Str _ | Ts _ => false
  end.

(** A frame: the length of its index and its columns, in order, each
    holding one cell per index entry. *)
Record DataFrame : Type := {
  index : nat;
  data : list (string * list cell)
}.

Definition columns (df : DataFrame) : list string := (data df).*1.

(** [pd.DataFrame()]. *)
Definition DataFrame_empty : DataFrame := {| index := 0; data := [] |}.

(** A JSON null is None in the frame (pandas shows it as NaN in a column
    of numbers; [isna] holds of both). *)
Definition cell_of_json (v : json) : cell :=
  match v with
  | JNull => PyNone
  | JNumber n => Num n
  | JString s => Str s
  end.

(** The keys of all records, each once, in order of first appearance. *)
Fixpoint union_keys (seen ks : list string) : list string :=
  match ks with
  | [] => seen
  | k :: ks' =>
      if decide (k ∈ seen) then union_keys seen ks' else union_keys (seen ++ [k]) ks'
  end.

(** [pd.json_normalize] on flat records: one row per record, one column per
    key met; a record without the key gets NaN there. *)
Definition json_normalize (records : list record) : DataFrame :=
  {| index := length records;
     data := (fun k => (k, (fun r => from_option cell_of_json NaN (dict_get k r)) <$> records))
               <$> union_keys [] (mjoin ((fun r : record => r.*1) <$> records)) |}.

Fixpoint lookup_column (k : string) (d : list (string * list cell)) : option (list cell) :=
  match d with
  | [] => None
  | (k', s) :: d' => if decide (k = k') then Some s else lookup_column k d'
  end.

(** [df[k]] read: KeyError when there is no such column. *)
Definition getitem (k : string) (df : DataFrame) : result (list cell) :=
  match lookup_column k (data df) with
  | Some s => Ok s
  | None => Raise (KeyError k)
  end.

(** [df[ks]] with a list of labels. *)
Fixpoint getitems (ks : list string) (df : DataFrame) : result (list (string * list cell)) :=
  match ks with
  | [] => Ok []
  | k :: ks' =>
      s ← getitem k df;
      d ← getitems ks' df;
      Ok ((k, s) :: d)
  end.

Definition select (ks : list string) (df : DataFrame) : result DataFrame :=
  d ← getitems ks df;
  Ok {| index := index df; data := d |}.

Fixpoint replace_column (k : string) (s : list cell) (d : list (string * list cell))
  : list (string * list cell) :=
  match d with
  | [] => [(k, s)]
  | (k', s') :: d' =>
      if decide (k = k') then (k, s) :: d' else (k', s') :: replace_column k s d'
  end.

(** [df[k] = s]: the column is replaced where it stands, or added last. *)
Definition setitem (k : string) (s : list cell) (df : DataFrame) : DataFrame :=
  {| index := index df; data := replace_column k s (data df) |}.

Fixpoint assoc (k : string) (m : list (string * string)) : option string :=
  match m with
  | [] => None
  | (k', v) :: m' => if decide (k = k') then Some v else assoc k m'
  end.

(** [df.rename(columns=m)]. *)
Definition rename (m : list (string * string)) (df : DataFrame) : DataFrame :=
  {| index := index df;
     data := (fun '(k, s) => (default k (assoc k m), s)) <$> data df |}.

(** [pd.to_numeric(s, errors="coerce")], cell by cell. *)
Definition to_numeric_cell (v : cell) : cell :=
  match v with
  | Num n => Num n
  | Str s => from_option Num NaN (str_to_number s)
  | NaN | NaT | PyNone | Ts _ => NaN
  end.

Definition to_numeric (s : list cell) : list cell := to_numeric_cell <$> s.

(** [pd.to_datetime(s, utc=True, errors="coerce")], cell by cell. *)
Definition to_datetime_cell (v : cell) : cell :=
  match v with
  | Ts t => Ts t
  | Str s => from_option Ts NaT (str_to_datetime s)
  | Num n => from_option Ts NaT (number_to_datetime n)
  | NaN | NaT | PyNone => NaT
  end.

Definition to_datetime (s : list cell) : list cell := to_datetime_cell <$> s.

(** The value of a tuple at a label, the labels read left to right. *)
Fixpoint field (k : string) (ks : list string) (vs : list cell) : option cell :=
  match ks, vs with
  | k' :: ks', v :: vs' => if decide (k = k') then Some v else field k ks' vs'
  | _, _ => None
  end.

(** [df.itertuples(index=False)]: the rows, each with one value per column. *)
Definition itertuples (df : DataFrame) : list (list cell) :=
  (fun i => (fun c : string * list cell => default NaN (c.2 !! i)) <$> data df) <$> seq 0 (index df).

End WithScalars.
End Pandas.

(** ** The Normalizer: [markets_to_dataframe] *)

Module Normalizer.
Import Pandas.
Section WithScalars.
Context `{Scalars}.

(** The whitelist, source field to column name. *)
Definition keep : list (string * string) :=
  [ ("id", "coin_id");
    ("symbol", "symbol");
    ("name", "name");
    ("current_price", "current_price");
    ("market_cap", "market_cap");
    ("total_volume", "total_volume");
    ("high_24h", "high_24h");
    ("low_24h", "low_24h");
    ("price_change_percentage_24h", "pct_change_24h");
    ("last_updated", "last_updated") ].

(** [df[k] = pd.to_numeric(df[k], errors="coerce")] (lines 102-105). *)
Definition coerce_numeric (k : string) (df : DataFrame) : result DataFrame :=
  s ← getitem k df;
  Ok (setitem k (to_numeric s) df).

(** [df[k] = pd.to_datetime(df[k], utc=True, errors="coerce")] (line 108). *)
Definition coerce_datetime (k : string) (df : DataFrame) : result DataFrame :=
  s ← getitem k df;
  Ok (setitem k (to_datetime s) df).

(** Lines 81-111.  [utcnow] is what [pd.Timestamp.utcnow()] reads off the
    clock.  The dict of the rename, [{k: keep[k] for k in present}], is the
    part of [keep] whose keys are present. *)
Definition markets_to_dataframe (utcnow : timestamp) (records : list record)
  : result DataFrame :=
  match records with
  | [] => Ok DataFrame_empty
  | _ :: _ =>
      let df := json_normalize records in
      let present := filter (fun c => c ∈ columns df) keep.*1 in
      df ← select present df;
      let df := rename (filter (fun kv => kv.1 ∈ present) keep) df in
      df ← coerce_numeric "current_price" df;
      df ← coerce_numeric "market_cap" df;
      df ← coerce_numeric "total_volume" df;
      df ← coerce_numeric "pct_change_24h" df;
      df ← (if decide ("last_updated" ∈ columns df)
            then coerce_datetime "last_updated" df
            else Ok df);
      Ok (setitem "load_timestamp" (replicate (index df) (Ts utcnow)) df)
  end.

(** *** What the function computes, in closed form

    The definitions below are not statements of the source; the facts about
    [markets_to_dataframe] are stated with them. *)

(** The raw value of field [k] in a record, as json_normalize puts it in
    the frame. *)
Definition raw (k : string) (r : record) : cell :=
  from_option cell_of_json NaN (dict_get k r).

(** The column labelled [k], or nothing when the frame has none. *)
Definition column (df : DataFrame) (k : string) : list cell :=
  default [] (lookup_column k (data df)).

(** The column name a whitelisted field is renamed to. *)
Definition renamed (k : string) : string := default k (assoc k keep).

(** The whitelisted fields that are columns of the raw frame (line 99). *)
Definition present_of (records : list record) : list string :=
  filter (fun c => c ∈ columns (json_normalize records)) keep.*1.

(** Lines 85-100: the frame after the projection and the renaming. *)
Definition projected (records : list record) : DataFrame :=
  {| index := length records;
     data := (fun k => (renamed k, raw k <$> records)) <$> present_of records |}.

(** Lines 102-110 on a frame. *)
Definition coerced (utcnow : timestamp) (df : DataFrame) : result DataFrame :=
  df ← coerce_numeric "current_price" df;
  df ← coerce_numeric "market_cap" df;
  df ← coerce_numeric "total_volume" df;
  df ← coerce_numeric "pct_change_24h" df;
  df ← (if decide ("last_updated" ∈ columns df)
        then coerce_datetime "last_updated" df
        else Ok df);
  Ok (setitem "load_timestamp" (replicate (index df) (Ts utcnow)) df).

(** The four fields lines 102-105 read, and the columns they are read as. *)
Definition numeric_fields : list string :=
  ["current_price"; "market_cap"; "total_volume"; "price_change_percentage_24h"].

Definition numeric_columns : list string :=
  ["current_price"; "market_cap"; "total_volume"; "pct_change_24h"].

(** What lines 102-108 make of a column, by its name. *)
Definition coerce_column (k' : string) (s : list cell) : list cell :=
  if decide (k' = "last_updated") then to_datetime s
  else if decide (k' ∈ numeric_columns) then to_numeric s
  else s.

(** The same, for one cell of the column. *)
Definition coerce_cell (k' : string) (v : cell) : cell :=
  if decide (k' = "last_updated") then to_datetime_cell v
  else if decide (k' ∈ numeric_columns) then to_numeric_cell v
  else v.

(** A frame is rectangular when every column holds one cell per index
    entry. *)
Definition rectangular (df : DataFrame) : Prop :=
  Forall (fun c : string * list cell => length c.2 = index df) (data df).

End WithScalars.
End Normalizer.

(** ** The Sink: schema bootstrap and batch load *)

Module Sink.
Import Pandas.

Inductive sqltype : Type :=
| Text
| Numeric (precision scale : Z)
| TIMESTAMP (timezone : bool).

#[global] Instance sqltype_eq_dec : EqDecision sqltype.
Proof. solve_decision. Defined.

(** *** SQLAlchemy's schema objects *)

(** A [Column]: [primary_key] is the attribute of the Python object. *)
Record Column : Type := {
  name : string;
  type_ : sqltype;
  nullable : bool;
  primary_key : bool
}.

(** [Column(name, type_, nullable=...)] without [primary_key=True]:
    nullable unless said otherwise. *)
Definition mkColumn (n : string) (t : sqltype) (nullable : option bool) : Column :=
  {| name := n; type_ := t; nullable := default true nullable; primary_key := false |}.

(** A [Table]: its columns [c] and its PrimaryKeyConstraint [constraint_pk]
    (the Python attribute [Table.primary_key]), the columns it was given
    when they were attached to the table. *)
Record Table : Type := {
  tablename : string;
  c : list Column;
  constraint_pk : list string
}.

(** [Table(name, metadata, *columns)]: the constraint collects the columns
    whose [primary_key] flag is set at that moment. *)
Definition mkTable (n : string) (cols : list Column) : Table :=
  {| tablename := n; c := cols;
     constraint_pk := name <$> filter (fun col => primary_key col = true) cols |}.

(** [table.c.<k>.primary_key = True]: a plain attribute assignment on the
    Column object; the table's constraint is not rebuilt. *)
Definition set_primary_key (k : string) (t : Table) : Table :=
  {| tablename := tablename t;
     c := (fun col => if decide (name col = k)
                      then {| name := name col; type_ := type_ col;
                              nullable := nullable col; primary_key := true |}
                      else col) <$> c t;
     constraint_pk := constraint_pk t |}.

(** Lines 118-139. *)
Definition crypto_prices : Table :=
  let crypto_prices :=
    mkTable "crypto_prices"
      [ mkColumn "coin_id" Text (Some false);
        mkColumn "symbol" Text None;
        mkColumn "name" Text None;
        mkColumn "current_price" (Numeric 20 6) None;
        mkColumn "market_cap" (Numeric 30 2) None;
        mkColumn "total_volume" (Numeric 30 2) None;
        mkColumn "high_24h" (Numeric 20 6) None;
        mkColumn "low_24h" (Numeric 20 6) None;
        mkColumn "pct_change_24h" (Numeric 10 6) None;
        mkColumn "last_updated" (TIMESTAMP true) None;
        mkColumn "load_timestamp" (TIMESTAMP true) (Some false) ] in
  let crypto_prices := set_primary_key "coin_id" crypto_prices in
  let crypto_prices := set_primary_key "load_timestamp" crypto_prices in
  crypto_prices.

Section WithScalars.
Context `{Scalars}.

(** *** The store *)

Record db_column : Type := {
  col_name : string;
  col_type : sqltype;
  not_null : bool
}.

(** A relation of the current schema: its columns, the columns of its
    PRIMARY KEY ([[]] when it has none) and its rows, one value per column. *)
Record relation : Type := {
  rel_columns : list db_column;
  rel_key : list string;
  rel_rows : list (list cell)
}.

(** The store: the relations of the current schema by name, together with
    the server's rule for which values a column type takes.  The model
    covers a database whose search path is the one current schema and
    whose relations are all ordinary tables: there, the names SQLAlchemy's
    [has_table] sees and the names [pg_tables] lists for the schema are
    the same, the domain of [relations].  Views and tables of other
    schemas, on which the two differ, are outside the model. *)
Record store : Type := {
  relations : gmap string relation;
  accepts : sqltype -> cell -> bool
}.

Definition with_relations (s : store) (m : gmap string relation) : store :=
  {| relations := m; accepts := accepts s |}.

(** The CREATE TABLE statement SQLAlchemy emits for a Table: the columns
    with NOT NULL where [nullable] is false, and a PRIMARY KEY clause for
    the columns of the table's constraint. *)
Definition create_table (t : Table) : relation :=
  {| rel_columns := (fun col => {| col_name := name col; col_type := type_ col;
                                   not_null := negb (nullable col) |}) <$> c t;
     rel_key := constraint_pk t;
     rel_rows := [] |}.

(** [metadata.create_all(conn)]: a table that exists is left alone. *)
Definition create_all (tables : list Table) (s : store) : store :=
  foldl (fun s t =>
           match relations s !! tablename t with
           | Some _ => s
           | None => with_relations s (<[tablename t := create_table t]> (relations s))
           end) s tables.

(** The two lines the bootstrap can print. *)
Inductive printed : Type :=
| TableExists
| TableNotFound.

(** Lines 115-152; the transaction of [engine.begin()] commits.  The
    listing of lines 145-149 reads [pg_tables] for the current schema: in
    the databases the store covers, the domain of [relations]. *)
Definition create_crypto_prices_table (s : store) : store * printed :=
  let s := create_all [crypto_prices] s in
  let tables := elements (dom (relations s)) in
  (s, if decide ("crypto_prices" ∈ tables) then TableExists else TableNotFound).

(** *** Rows *)

(** Lines 155-163. *)
Definition prepare_rows (df : DataFrame) : list (list cell) :=
  (fun row : list cell => (fun v => if isna v then PyNone else v) <$> row) <$> itertuples df.

(** The target columns of INSERT_SQL, and its conflict target. *)
Definition insert_columns : list string :=
  [ "coin_id"; "symbol"; "name"; "current_price"; "market_cap"; "total_volume";
    "high_24h"; "low_24h"; "pct_change_24h"; "last_updated"; "load_timestamp" ].

Definition conflict_target : list string := ["coin_id"; "load_timestamp"].

(** The values of a stored row at the given columns (NULL for a column the
    relation does not have). *)
Definition project (cols : list db_column) (ks : list string) (row : list cell) : list cell :=
  (fun k => default PyNone (field k (col_name <$> cols) row)) <$> ks.

(** The row INSERT_SQL builds from its parameters: the named columns take
    the parameters in order, any other column of the relation is NULL. *)
Definition new_row (cols : list db_column) (params : list cell) : list cell :=
  (fun col => default PyNone (field (col_name col) insert_columns params)) <$> cols.

(** The keys (values at the conflict target) of the stored rows. *)
Definition keys (rel : relation) : list (list cell) :=
  project (rel_columns rel) conflict_target <$> rel_rows rel.

(** Whether the relation has a unique key on exactly the conflict target. *)
Definition has_arbiter (rel : relation) : bool :=
  bool_decide (list_to_set (rel_key rel) =@{gset string} list_to_set conflict_target
               ∧ rel_key rel ≠ []).

(** What psycopg2 does with the tuple before anything is sent: it fills
    the eleven [%s] of INSERT_SQL with the values, in order.  Too few
    values raise a builtin IndexError, too many a builtin TypeError. *)
Definition mogrify (params : list cell) : result unit :=
  if (length params <? length insert_columns)%nat then
    Raise (IndexError "tuple index out of range")
  else if (length insert_columns <? length params)%nat then
    Raise (TypeError "not all arguments converted during string formatting")
  else Ok tt.

(** The server's side of one execution of INSERT_SQL, the placeholders
    filled with [params].  The tests come in the server's order: the
    columns when the statement is analysed, the values when they are
    converted to the column types, the unique index for the conflict
    target when the statement is planned, the NOT NULL constraints when the
    row is built.  Each refusal ends the batch; on a conflict with a stored
    key nothing is done. *)
Definition insert_on_conflict_do_nothing (accepts : sqltype -> cell -> bool)
    (rel : relation) (params : list cell) : result relation :=
  if negb (bool_decide (insert_columns ⊆ col_name <$> rel_columns rel)) then
    Raise (ProgrammingError "column does not exist")
  else
    let row := new_row (rel_columns rel) params in
    if negb (forallb (fun cv => accepts (col_type cv.1) cv.2) (zip (rel_columns rel) row)) then
      Raise (DataError "invalid input for the column type")
    else if negb (has_arbiter rel) then
      Raise (ProgrammingError
               "there is no unique or exclusion constraint matching the ON CONFLICT specification")
    else if existsb (fun cv => (not_null cv.1 || bool_decide (col_name cv.1 ∈ rel_key rel))
                                && bool_decide (cv.2 = PyNone))
                    (zip (rel_columns rel) row) then
      Raise (IntegrityError "null value violates not-null constraint")
    else if bool_decide (project (rel_columns rel) conflict_target row ∈ keys rel) then
      Ok rel
    else
      Ok {| rel_columns := rel_columns rel; rel_key := rel_key rel;
            rel_rows := rel_rows rel ++ [row] |}.

(** The key of a parameter tuple: its [coin_id] and its [load_timestamp]. *)
Definition param_key (params : list cell) : list cell :=
  (fun k => default PyNone (field k insert_columns params)) <$> conflict_target.

(** [cur.executemany(INSERT_SQL, rows)] on a relation that is there: the
    statement once per row, in order, each filled in and then sent; the
    first error ends it. *)
Fixpoint executemany (accepts : sqltype -> cell -> bool) (rel : relation)
    (rows : list (list cell)) : result relation :=
  match rows with
  | [] => Ok rel
  | params :: rows' =>
      _ ← mogrify params;
      rel ← insert_on_conflict_do_nothing accepts rel params;
      executemany accepts rel rows'
  end.

(** The dict [load_to_postgres] returns. *)
Record report : Type := {
  attempted : nat;
  elapsed_s : Q
}.

(** Lines 166-208, on a server that can be reached; the log lines are left
    out.  [elapsed] is the time the clock shows between line 190 and line
    201.  The result is the store after the call and what the call returns
    or raises: on an error nothing was committed and closing the connection
    leaves the store as it was. *)
Definition load_to_postgres (s : store) (df : DataFrame) (elapsed : Q)
  : store * result report :=
  let rows := prepare_rows df in
  match rows with
  | [] => (s, Ok {| attempted := 0; elapsed_s := 0 |})
  | first :: _ =>
      match relations s !! "crypto_prices" with
      | None =>
          (* the first statement is filled in, sent, and refused *)
          (s, _ ← mogrify first;
              Raise (ProgrammingError "relation crypto_prices does not exist"))
      | Some rel =>
          match executemany (accepts s) rel rows with
          | Ok rel' =>
              (with_relations s (<["crypto_prices" := rel']> (relations s)),
               Ok {| attempted := length rows; elapsed_s := elapsed |})
          | Raise e => (s, Raise e)
          end
      end
  end.

(** The rows of [crypto_prices] stored under a key. *)
Definition persisted (s : store) (key : list cell) : list (list cell) :=
  match relations s !! "crypto_prices" with
  | Some rel =>
      filter (fun row => project (rel_columns rel) conflict_target row = key) (rel_rows rel)
  | None => []
  end.

(** What the server guarantees of a relation with a unique key on the
    conflict target: no two stored rows agree on it. *)
Definition unique_keys (s : store) : Prop :=
  forall rel, relations s !! "crypto_prices" = Some rel ->
              has_arbiter rel = true -> NoDup (keys rel).

End WithScalars.
End Sink.

(** ** The orchestrator: [main] *)

Module Main.
Import Fetcher Pandas Normalizer Sink.
Section WithScalars.
Context `{Scalars}.

(** The request of line 222; [max_retries] and [backoff] are left at
    their defaults, 3 and 1.0. *)
Definition markets_request : request :=
  {| vs_currency := "usd"; per_page := 250; page := 1 |}.

(** What a run leaves behind: the call of the Fetcher, the store, and how
    the run ends: with the dict of the load, which line 227 logs, or with
    the exception line 230 re-raises. *)
Record etl : Type := {
  fetched : run record;
  db : store;
  exit : result report
}.

(** Lines 223-227, on the value the Fetcher returned (None when it fell
    off its loop: [not records] holds of None as of an empty list).  The
    bootstrap runs only once the frame is there. *)
Definition transform_and_load (utcnow : timestamp) (elapsed : Q) (s : store)
    (records : option (list record)) : store * result report :=
  match markets_to_dataframe utcnow (default [] records) with
  | Raise e => (s, Raise e)
  | Ok df =>
      let s := (create_crypto_prices_table s).1 in
      load_to_postgres s df elapsed
  end.

(** Lines 211-230, the log lines left out, with a log file that can be
    opened, credentials that make a connection string and a server that
    can be reached.  [server] is the endpoint, [utcnow] the clock reading
    of line 110 and [elapsed] the time the load takes.  The handler of
    line 228 logs and re-raises, so an exception of any step is the
    exception of the run.  [None] means the Fetcher's loop was not given
    enough iterations. *)
Definition main (sleep_max : Q) (server : request -> nat -> response record)
    (utcnow : timestamp) (elapsed : Q) (s : store) : option etl :=
  match fetch_coingecko_markets sleep_max server markets_request 3 1 with
  | None => None
  | Some r =>
      Some
        match outcome_of r with
        | Raised e => {| fetched := r; db := s; exit := Raise e |}
        | Returned data =>
            let out := transform_and_load utcnow elapsed s (Some data) in
            {| fetched := r; db := out.1; exit := out.2 |}
        | ReturnedNone =>
            let out := transform_and_load utcnow elapsed s None in
            {| fetched := r; db := out.1; exit := out.2 |}
        end
  end.

End WithScalars.
End Main.

(** ** Reading a trace of the Fetcher *)

Module FetcherTrace.
Import Fetcher.

(** The requests sent, in order. *)
Definition sent (tr : list event) : list request :=
  omap (fun e => match e with Get r => Some r | _ => None end) tr.

(** The requests and the sleeps of a trace, in order, the log lines left
    out. *)
Definition steps (tr : list event) : list event :=
  omap (fun e => match e with Get _ | Sleep _ => Some e | _ => None end) tr.

(** [k] requests paced by a linear backoff: a sleep between two
    consecutive requests and nowhere else, the first sleep lasting
    [backoff * i] seconds, the next [backoff * (i + 1)], and so on. *)
Fixpoint paced (req : request) (backoff : Q) (i : Z) (k : nat) : list event :=
  match k with
  | O => []
  | S k' =>
      Get req ::
      match k' with
      | O => []
      | S _ => Sleep (backoff * inject_Z i)%Q :: paced req backoff (i + 1) k'
      end
  end.

End FetcherTrace.

(** ** Sample data

    Endpoints, records, a frame and a store to run the functions on. *)

Module FetcherSamples.
Import Fetcher.

Definition req0 : request := {| vs_currency := "usd"; per_page := 250; page := 1 |}.

(** The longest sleep of a clock that counts nanoseconds in 64 bits, in
    whole seconds. *)
Definition clock_max : Q := 9223372036.

(** An endpoint that never answers. *)
Definition down : request -> nat -> response string :=
  fun _ _ => NoResponse "timed out".

(** An endpoint that answers 503, then something that is not a list, then
    a list of two records. *)
Definition flaky : request -> nat -> response string :=
  fun _ n =>
    match n with
    | O => Response 503 NotJson
    | 1%nat => Response 200 JsonOther
    | _ => Response 200 (JsonList ["bitcoin"; "ethereum"])
    end.

End FetcherSamples.

Module Samples.
Import Pandas Normalizer Sink.

Definition digit (a : Ascii.ascii) : option Z :=
  let n := Z.of_nat (Ascii.nat_of_ascii a) in
  if (48 <=? n) && (n <=? 57) then Some (n - 48) else None.

Fixpoint digits (acc : Z) (s : string) : option Z :=
  match s with
  | EmptyString => Some acc
  | String a s' =>
      match digit a with
      | Some d => digits (10 * acc + d) s'
      | None => None
      end
  end.

Definition parse_Z (s : string) : option Z :=
  match s with
  | EmptyString => None
  | _ => digits 0 s
  end.

(** Whole numbers, and seconds since the epoch; a text is a number or a
    time when it is a run of decimal digits. *)
#[export] Instance whole : Scalars := {|
  number := Z;
  timestamp := Z;
  str_to_number := parse_Z;
  str_to_datetime := parse_Z;
  number_to_datetime := Some
|}.

(** A server that takes None anywhere, any value as text, numbers as
    numerics and timestamps as timestamps. *)
Definition pg_accepts (t : sqltype) (v : cell) : bool :=
  match t, v with
  | _, PyNone => true
  | Text, _ => true
  | Numeric _ _, Num _ => true
  | TIMESTAMP _, Ts _ => true
  | _, _ => false
  end.

Definition bitcoin : record :=
  [ ("id", JString "bitcoin"); ("symbol", JString "btc"); ("name", JString "Bitcoin");
    ("current_price", JString "65000"); ("market_cap", JNumber 1280000000000);
    ("total_volume", JNull); ("high_24h", JNumber 66000); ("low_24h", JNumber 64000);
    ("price_change_percentage_24h", JString "n/a");
    ("last_updated", JString "1704067200"); ("roi", JNull) ].

Definition ethereum : record :=
  [ ("id", JString "ethereum"); ("current_price", JNumber 3500) ].

(** The frame [markets_to_dataframe] returns for the two records at clock
    reading 1704070800. *)
Definition frame : DataFrame :=
  {| index := 2;
     data :=
       [ ("coin_id", [Str "bitcoin"; Str "ethereum"]);
         ("symbol", [Str "btc"; NaN]);
         ("name", [Str "Bitcoin"; NaN]);
         ("current_price", [Num 65000; Num 3500]);
         ("market_cap", [Num 1280000000000; NaN]);
         ("total_volume", [NaN; NaN]);
         ("high_24h", [Num 66000; NaN]);
         ("low_24h", [Num 64000; NaN]);
         ("pct_change_24h", [NaN; NaN]);
         ("last_updated", [Ts 1704067200; NaT]);
         ("load_timestamp", [Ts 1704070800; Ts 1704070800]) ] |}.

(** A schema whose [crypto_prices] has the composite primary key: the
    relation of a Table whose key columns carry [primary_key] when the
    Table is built. *)
Definition keyed : Table :=
  mkTable "crypto_prices"
    ((fun col => if decide (name col ∈ conflict_target)
                 then {| name := name col; type_ := type_ col;
                         nullable := false; primary_key := true |}
                 else col) <$> c crypto_prices).

Definition keyed_store : store :=
  {| relations := {["crypto_prices" := create_table keyed]}; accepts := pg_accepts |}.

End Samples.

Module MoreSamples.
Import Pandas Normalizer Sink Samples.

(** A frame with one row and two columns only. *)
Definition narrow : DataFrame :=
  {| index := 1;
     data := [ ("coin_id", [Str "bitcoin"]); ("load_timestamp", [Ts 1704070800]) ] |}.

(** The sample frame with the [coin_id] of its second row missing. *)
Definition nameless : DataFrame :=
  setitem "coin_id" [Str "bitcoin"; NaN] frame.

(** A record without [id]. *)
Definition anonymous : record := [ ("current_price", JNumber 3500) ].

(** The sample frame with other prices: the keys of its rows are those of
    the sample frame. *)
Definition repriced : DataFrame :=
  setitem "current_price" [Num 1; Num 2] frame.

(** A schema without any relation, on the sample server. *)
Definition fresh_store : store := {| relations := ∅; accepts := pg_accepts |}.

(** A record with the four numeric fields and nothing else, and the frame
    [markets_to_dataframe] returns for it at clock reading 1704070800. *)
Definition priced : record :=
  [ ("current_price", JNumber 3500); ("market_cap", JString "n/a");
    ("total_volume", JNull); ("price_change_percentage_24h", JNumber 2) ].

Definition priced_frame : DataFrame :=
  {| index := 1;
     data := [ ("current_price", [Num 3500]); ("market_cap", [NaN]);
               ("total_volume", [NaN]); ("pct_change_24h", [Num 2]);
               ("load_timestamp", [Ts 1704070800]) ] |}.

(** Three endpoints: one that is down, one that answers with the two
    sample records, one that answers with the second of them only. *)
Definition outage : Fetcher.request -> nat -> Fetcher.response record :=
  fun _ _ => Fetcher.NoResponse "timed out".

Definition market : Fetcher.request -> nat -> Fetcher.response record :=
  fun _ _ => Fetcher.Response 200 (Fetcher.JsonList [bitcoin; ethereum]).

Definition thin_market : Fetcher.request -> nat -> Fetcher.response record :=
  fun _ _ => Fetcher.Response 200 (Fetcher.JsonList [ethereum]).

End MoreSamples.

(** * Properties *)

(** ** The retry loop *)

Section FetcherFacts.
Import Fetcher.
Context {item : Type}.
Variable sleep_max : Q.
Variable server : request -> nat -> response item.
Variable req : request.
Variable max_retries : Z.
Variable backoff : Q.

(** The exceptions one attempt can end in: never the spec's wrapper. *)
Lemma attempt_body_raw (r : response item) (e : exn) :
  attempt_body r = Raise e -> forall cause, e <> FetchError cause.
Proof.
  destruct r as [msg | status b]; cbn.
  - intros [= <-] cause; discriminate.
  - unfold raise_for_status.
    destruct ((400 <=? status) && (status <? 600)); cbn.
    + intros [= <-] cause; discriminate.
    + destruct b; intros [= <-] cause; discriminate.
Qed.

(** The sleeps of a call whose backoff is not negative and whose longest
    sleep, the one before the last attempt, is within the clock's range:
    none of them raises. *)
Lemma time_sleep_within (a : Z) :
  (0 <= backoff)%Q ->
  (backoff * inject_Z (max_retries - 1) <= sleep_max)%Q ->
  1 <= a < max_retries ->
  time_sleep sleep_max (backoff * inject_Z a) = Ok tt.
Proof.
  intros Hb Hmax Ha.
  assert (H0 : (0 <= backoff * inject_Z a)%Q).
  { apply Qmult_le_0_compat; [done |]. change 0%Q with (inject_Z 0).
    rewrite <- Zle_Qle. lia. }
  assert (H1 : (backoff * inject_Z a <= sleep_max)%Q).
  { eapply Qle_trans; [| exact Hmax].
    rewrite !(Qmult_comm backoff). apply Qmult_le_compat_r; [| done].
    rewrite <- Zle_Qle. lia. }
  assert (H2 : (- sleep_max <= backoff * inject_Z a)%Q).
  { eapply Qle_trans; [| exact H0].
    apply (Qopp_le_compat 0). by eapply Qle_trans. }
  unfold time_sleep.
  apply Qle_bool_iff in H0, H1, H2. by rewrite H0, H1, H2.
Qed.

Section Sleeping.
(** The sleeps the loop can come to are taken. *)
Hypothesis sleeps_taken :
  forall a, 1 <= a < max_retries -> time_sleep sleep_max (backoff * inject_Z a) = Ok tt.

(** [m] failing attempts in a row, starting at request [n] with the
    counter at [attempt], lead to the last one of the budget. *)
Lemma fetch_loop_failures (m : nat) :
  forall (fuel : nat) (attempt : Z) (n : nat) (tr : list event),
    (m < fuel)%nat ->
    attempt + Z.of_nat (S m) = max_retries ->
    0 <= attempt ->
    (forall i, (i <= m)%nat -> exists e, attempt_body (server req (n + i)) = Raise e) ->
    exists r e,
      fetch_loop sleep_max server req max_retries backoff fuel attempt n tr = Some r /\
      attempt_body (server req (n + m)) = Raise e /\
      outcome_of r = Raised e /\ gets r = (n + S m)%nat.
Proof.
  induction m as [| m IH]; intros fuel attempt n tr Hfuel Hmax Hatt Hfail.
  - destruct fuel as [| fuel]; [lia |]. cbn [fetch_loop].
    destruct (Z.ltb_spec attempt max_retries) as [_ | Hge]; [| lia].
    destruct (Hfail 0%nat ltac:(lia)) as [e He].
    rewrite Nat.add_0_r in He |- *. rewrite He.
    destruct (Z.ltb_spec (attempt + 1) max_retries) as [Hlt | _]; [lia |].
    eexists _, e. split; [reflexivity |]. cbn. repeat split; first [done | lia].
  - destruct fuel as [| fuel]; [lia |]. cbn [fetch_loop].
    destruct (Z.ltb_spec attempt max_retries) as [_ | Hge]; [| lia].
    destruct (Hfail 0%nat ltac:(lia)) as [e0 He0].
    rewrite Nat.add_0_r in He0. rewrite He0.
    destruct (Z.ltb_spec (attempt + 1) max_retries) as [_ | Hge]; [| lia].
    rewrite sleeps_taken by lia.
    match goal with |- context [fetch_loop _ _ _ _ _ fuel _ _ ?tr'] =>
      destruct (IH fuel (attempt + 1) (S n) tr') as (r & e & Hrun & He & Hout & Hgets)
    end; [lia | lia | lia | | ].
    + intros i Hi. destruct (Hfail (S i) ltac:(lia)) as [e He].
      exists e. rewrite <- He. do 2 f_equal. lia.
    + exists r, e. split; [exact Hrun |].
      replace (n + S m)%nat with (S n + m)%nat by lia.
      repeat split; first [done | lia].
Qed.


End Sleeping.

(** With as many iterations as [fetch_coingecko_markets] allows itself,
    the loop always comes to an end. *)
Lemma fetch_coingecko_markets_returns :
  exists r, fetch_coingecko_markets sleep_max server req max_retries backoff = Some r.
Proof.
  unfold fetch_coingecko_markets.
  assert (Hgen : forall fuel attempt n tr,
             (Z.to_nat (max_retries - attempt) < fuel)%nat ->
             exists r, fetch_loop sleep_max server req max_retries backoff fuel attempt n tr
                       = Some r).
  { induction fuel as [| fuel IH]; intros attempt n tr Hfuel; [lia |].
    cbn [fetch_loop].
    destruct (Z.ltb_spec attempt max_retries) as [Hlt | Hge]; [| eauto].
    destruct (attempt_body (server req n)) as [data | e]; [eauto |].
    destruct (Z.ltb_spec (attempt + 1) max_retries) as [Hlt' | Hge']; [| eauto].
    destruct (time_sleep sleep_max _); [| eauto].
    apply IH. lia. }
  apply Hgen. lia.
Qed.


(** C4, as the code has it.  When all [max_retries >= 1] attempts fail,
    with a backoff the sleeps between them can be taken with, the call
    raises the exception of the last attempt itself, as that attempt
    raised it; it is not wrapped, and it is never a FetchError. *)
Theorem fetch_exhausted_reraises_last :
  1 <= max_retries ->
  (0 <= backoff)%Q ->
  (backoff * inject_Z (max_retries - 1) <= sleep_max)%Q ->
  (forall i, (i < Z.to_nat max_retries)%nat ->
     exists e, attempt_body (server req i) = Raise e) ->
  exists r e,
    fetch_coingecko_markets sleep_max server req max_retries backoff = Some r /\
    attempt_body (server req (Z.to_nat max_retries - 1)) = Raise e /\
    outcome_of r = Raised e /\
    forall cause, e <> FetchError cause.
Proof.
  intros HN Hb Hmax Hfail.
  pose proof (fun a => time_sleep_within a Hb Hmax) as Hsleep.
  destruct (fetch_loop_failures Hsleep (Z.to_nat max_retries - 1)
              (S (Z.to_nat max_retries)) 0 0%nat [])
    as (r & e & Hrun & He & Hout & _); [lia | lia | lia | |].
  - intros i Hi. apply Hfail. lia.
  - exists r, e. repeat split; try done.
    eapply attempt_body_raw, He.
Qed.

(** C9. With [max_retries <= 0] the loop body never runs: no request is
    sent, nothing is logged, and the call returns None without raising. *)
Theorem fetch_no_attempts_returns_None :
  max_retries <= 0 ->
  fetch_coingecko_markets sleep_max server req max_retries backoff
  = Some {| outcome_of := ReturnedNone; gets := 0; trace := [] |}.
Proof.
  intros Hle. unfold fetch_coingecko_markets.
  replace (Z.to_nat max_retries) with 0%nat by lia. cbn [fetch_loop].
  destruct (Z.ltb_spec 0 max_retries) as [Hlt | _]; [lia | reflexivity].
Qed.

(** X18. A sleep that raises ends the call: a negative backoff, at least two
    allowed attempts and a first attempt that fails give one request and
    the ValueError of [time.sleep], not a second attempt and not the
    exception of the request. *)
Theorem fetch_negative_backoff_raises (e0 : exn) :
  2 <= max_retries ->
  (backoff < 0)%Q ->
  (- sleep_max <= backoff)%Q ->
  attempt_body (server req 0) = Raise e0 ->
  exists r msg,
    fetch_coingecko_markets sleep_max server req max_retries backoff = Some r /\
    outcome_of r = Raised (ValueError msg) /\
    gets r = 1%nat.
Proof.
  intros HN Hneg Hlow Hfail. unfold fetch_coingecko_markets.
  destruct (Z.to_nat max_retries) as [| fuel] eqn:Hfuel; [lia |].
  cbn [fetch_loop].
  destruct (Z.ltb_spec 0 max_retries) as [_ | Hge]; [| lia].
  rewrite Hfail.
  destruct (Z.ltb_spec (0 + 1) max_retries) as [_ | Hge]; [| lia].
  assert (Hd : (backoff * inject_Z (0 + 1) == backoff)%Q) by apply Qmult_1_r.
  unfold time_sleep.
  assert (H1 : Qle_bool (- sleep_max) (backoff * inject_Z (0 + 1)) = true).
  { apply Qle_bool_iff. by rewrite Hd. }
  assert (H2 : Qle_bool (backoff * inject_Z (0 + 1)) sleep_max = true).
  { apply Qle_bool_iff. rewrite Hd. apply Qlt_le_weak.
    eapply Qlt_le_trans; [exact Hneg |].
    apply Qopp_le_compat in Hlow. rewrite Qopp_opp in Hlow.
    eapply Qle_trans; [| exact Hlow]. apply (Qopp_le_compat backoff 0).
    by apply Qlt_le_weak. }
  assert (H3 : Qle_bool 0 (backoff * inject_Z (0 + 1)) = false).
  { apply not_true_is_false. intros Hle%Qle_bool_iff. rewrite Hd in Hle.
    by apply Qle_not_lt in Hle. }
  rewrite H1, H2, H3. cbn [negb andb].
  eexists _, _. split; [reflexivity |]. done.
Qed.

End FetcherFacts.

(** ** The trace of the retry loop *)

Section FetcherTraceFacts.
Import Fetcher FetcherTrace.
Context {item : Type}.
Variable sleep_max : Q.
Variable server : request -> nat -> response item.
Variable req : request.
Variable max_retries : Z.
Variable backoff : Q.

Lemma sent_app (tr1 tr2 : list event) : sent (tr1 ++ tr2) = sent tr1 ++ sent tr2.
Proof. apply omap_app. Qed.

Lemma steps_app (tr1 tr2 : list event) : steps (tr1 ++ tr2) = steps tr1 ++ steps tr2.
Proof. apply omap_app. Qed.

(** What one run of the loop adds to the counter and to the trace. *)
Lemma fetch_loop_trace (fuel : nat) :
  forall (attempt : Z) (n : nat) (tr : list event) (r : run item),
    fetch_loop sleep_max server req max_retries backoff fuel attempt n tr = Some r ->
    (n <= gets r)%nat /\
    (attempt < max_retries -> (n < gets r)%nat) /\
    (gets r <= n + Z.to_nat (max_retries - attempt))%nat /\
    steps (trace r) = steps tr ++ paced req backoff (attempt + 1) (gets r - n) /\
    sent (trace r) = sent tr ++ replicate (gets r - n) req /\
    (outcome_of r = ReturnedNone -> gets r = n /\ max_retries <= attempt).
Proof.
  induction fuel as [| fuel IH]; intros attempt n tr r; cbn [fetch_loop]; [done |].
  assert (Hone : forall r' : run item,
             gets r' = S n ->
             steps (trace r') = steps tr ++ [Get req] ->
             sent (trace r') = sent tr ++ [req] ->
             outcome_of r' <> ReturnedNone ->
             (n <= gets r')%nat /\
             (attempt < max_retries -> (n < gets r')%nat) /\
             (attempt < max_retries -> (gets r' <= n + Z.to_nat (max_retries - attempt))%nat) /\
             steps (trace r') = steps tr ++ paced req backoff (attempt + 1) (gets r' - n) /\
             sent (trace r') = sent tr ++ replicate (gets r' - n) req /\
             (outcome_of r' = ReturnedNone -> gets r' = n /\ max_retries <= attempt)).
  { intros r' Hg Hst Hse Hout. rewrite Hg, Hst, Hse.
    replace (S n - n)%nat with 1%nat by lia. cbn [paced replicate].
    split_and!; first [done | lia]. }
  destruct (Z.ltb_spec attempt max_retries) as [Hlt | Hge].
  - destruct (attempt_body (server req n)) as [data | e].
    + intros [= <-].
      destruct (Hone {| outcome_of := Returned data; gets := S n;
                        trace := (tr ++ [LogFetching (page req) (per_page req) (attempt + 1);
                                         Get req]) ++ [LogFetched (length data)] |})
        as (? & ? & Hle & ? & ? & ?); [done | | | done |].
      * cbn [trace]. rewrite !steps_app. cbn. by rewrite app_nil_r.
      * cbn [trace]. rewrite !sent_app. cbn. by rewrite app_nil_r.
      * specialize (Hle Hlt). by split_and!.
    + destruct (Z.ltb_spec (attempt + 1) max_retries) as [Hlt' | Hge'].
      * destruct (time_sleep sleep_max _) as [[] | e'].
        -- intros Hrun. apply IH in Hrun as (Hn & Hpos & Hle & Hst & Hse & Hnone).
           specialize (Hpos Hlt').
           rewrite Hst, Hse. rewrite !steps_app, !sent_app. cbn. rewrite !app_nil_r.
           split_and!.
           ++ lia.
           ++ lia.
           ++ lia.
           ++ rewrite <- !app_assoc. f_equal.
              replace (gets r - n)%nat with (S (gets r - S n)) by lia.
              destruct (gets r - S n)%nat as [| k] eqn:Hk; [lia |]. done.
           ++ rewrite <- app_assoc. f_equal.
              replace (gets r - n)%nat with (S (gets r - S n)) by lia. done.
           ++ intros Hout. destruct (Hnone Hout) as [Hg Hm]. lia.
        -- intros [= <-].
           destruct (Hone {| outcome_of := Raised e'; gets := S n;
                             trace := (tr ++ [LogFetching (page req) (per_page req) (attempt + 1);
                                              Get req]) ++ [LogFailed (attempt + 1) e] |})
             as (? & ? & Hle & ? & ? & ?); [done | | | done |].
           ++ cbn [trace]. rewrite !steps_app. cbn. by rewrite app_nil_r.
           ++ cbn [trace]. rewrite !sent_app. cbn. by rewrite app_nil_r.
           ++ specialize (Hle Hlt). by split_and!.
      * intros [= <-].
        destruct (Hone {| outcome_of := Raised e; gets := S n;
                          trace := ((tr ++ [LogFetching (page req) (per_page req) (attempt + 1);
                                            Get req]) ++ [LogFailed (attempt + 1) e])
                                   ++ [LogMaxRetries] |})
          as (? & ? & Hle & ? & ? & ?); [done | | | done |].
        -- cbn [trace]. rewrite !steps_app. cbn. by rewrite !app_nil_r.
        -- cbn [trace]. rewrite !sent_app. cbn. by rewrite !app_nil_r.
        -- specialize (Hle Hlt). by split_and!.
  - intros [= <-]. cbn [gets trace outcome_of].
    replace (n - n)%nat with 0%nat by lia.
    cbn. rewrite !app_nil_r. split_and!; first [lia | done].
Qed.

(** X1. Whatever the endpoint answers and whatever [max_retries] is, the
    call comes to an end and has sent at most [max_retries] requests (none
    when [max_retries] is not positive). *)
Theorem fetch_requests_bounded :
  exists r,
    fetch_coingecko_markets sleep_max server req max_retries backoff = Some r /\
    (gets r <= Z.to_nat max_retries)%nat.
Proof.
  destruct (fetch_coingecko_markets_returns sleep_max server req max_retries backoff)
    as [r Hrun].
  exists r. split; [done |].
  apply fetch_loop_trace in Hrun as (_ & _ & Hle & _).
  replace (max_retries - 0) with max_retries in Hle by lia. lia.
Qed.

(** X2. With [max_retries >= 1] the call sends at least one request and
    never falls off the end of the loop: it returns a list or raises,
    never None. *)
Theorem fetch_positive_never_None :
  1 <= max_retries ->
  exists r,
    fetch_coingecko_markets sleep_max server req max_retries backoff = Some r /\
    (1 <= gets r)%nat /\
    outcome_of r <> ReturnedNone.
Proof.
  intros Hpos.
  destruct (fetch_coingecko_markets_returns sleep_max server req max_retries backoff)
    as [r Hrun].
  exists r. split; [done |].
  apply fetch_loop_trace in Hrun as (_ & Hlt & _ & _ & _ & Hnone).
  split; [lia |]. intros Hout. destruct (Hnone Hout). lia.
Qed.

(** X3. Linear backoff.  The requests and the sleeps of a call, in the
    order in which they happen: a call that sends [k] requests sleeps
    [k - 1] times, once between every two consecutive requests and never
    after the last one, the [i]-th time for [backoff * i] seconds.  This
    holds of every call, also of one that a refused sleep ends. *)
Theorem fetch_backoff_linear :
  exists r,
    fetch_coingecko_markets sleep_max server req max_retries backoff = Some r /\
    steps (trace r) = paced req backoff 1 (gets r).
Proof.
  destruct (fetch_coingecko_markets_returns sleep_max server req max_retries backoff)
    as [r Hrun].
  exists r. split; [done |].
  apply fetch_loop_trace in Hrun as (_ & _ & _ & Hst & _).
  rewrite Hst. cbn [steps omap list_omap app]. by rewrite Nat.sub_0_r.
Qed.

(** X4. Every retry sends the same request: the requests of a call are
    as many copies of its query parameters as it counts requests. *)
Theorem fetch_same_request :
  exists r,
    fetch_coingecko_markets sleep_max server req max_retries backoff = Some r /\
    sent (trace r) = replicate (gets r) req.
Proof.
  destruct (fetch_coingecko_markets_returns sleep_max server req max_retries backoff)
    as [r Hrun].
  exists r. split; [done |].
  apply fetch_loop_trace in Hrun as (_ & _ & _ & _ & Hse & _).
  rewrite Hse. cbn [sent omap list_omap app]. by rewrite Nat.sub_0_r.
Qed.

End FetcherTraceFacts.

(** ** Frames *)

Section FrameFacts.
Import Pandas.
Context `{Scalars}.

Lemma lookup_replace_column (k : string) (s : list cell) (d : list (string * list cell)) :
  lookup_column k (replace_column k s d) = Some s.
Proof.
  induction d as [| [k' s'] d IH]; simpl.
  - by rewrite decide_True.
  - destruct (decide (k = k')) as [-> | Hne]; simpl.
    + by rewrite decide_True.
    + by rewrite decide_False.
Qed.

Lemma lookup_replace_column_ne (k k' : string) (s : list cell) (d : list (string * list cell)) :
  k <> k' -> lookup_column k' (replace_column k s d) = lookup_column k' d.
Proof.
  intros Hne. induction d as [| [k0 s0] d IH]; simpl.
  - rewrite decide_False; [done | congruence].
  - destruct (decide (k = k0)) as [-> | Hne0]; simpl.
    + rewrite !decide_False; [done | congruence | congruence].
    + destruct (decide (k' = k0)); [done | exact IH].
Qed.

(** The value of row [i] at label [k] is entry [i] of the first column
    labelled [k]. *)
Lemma field_of_row (k : string) (i : nat) (d : list (string * list cell)) (s : list cell) :
  lookup_column k d = Some s ->
  field k d.*1 ((fun c : string * list cell => default NaN (c.2 !! i)) <$> d)
  = Some (default NaN (s !! i)).
Proof.
  induction d as [| [k' s'] d IH]; simpl; [done |].
  destruct (decide (k = k')) as [-> | Hne]; [by intros [= ->] | exact IH].
Qed.

Lemma itertuples_lookup (df : DataFrame) (i : nat) :
  (i < index df)%nat ->
  itertuples df !! i
  = Some ((fun c : string * list cell => default NaN (c.2 !! i)) <$> data df).
Proof.
  intros Hi. unfold itertuples. rewrite list_lookup_fmap, lookup_seq_lt; done.
Qed.

Lemma length_itertuples (df : DataFrame) : length (itertuples df) = index df.
Proof. unfold itertuples. by rewrite length_fmap, length_seq. Qed.

Lemma elem_of_itertuples (df : DataFrame) (row : list cell) :
  row ∈ itertuples df ->
  exists i, (i < index df)%nat /\
            row = (fun c : string * list cell => default NaN (c.2 !! i)) <$> data df.
Proof.
  unfold itertuples. intros (i & -> & Hi)%list_elem_of_fmap.
  apply elem_of_seq in Hi. exists i. split; [lia | done].
Qed.

Lemma length_prepare_rows (df : DataFrame) :
  length (Sink.prepare_rows df) = index df.
Proof. unfold Sink.prepare_rows. by rewrite length_fmap, length_itertuples. Qed.

Lemma field_fmap (f : cell -> cell) (k : string) (ks : list string) (vs : list cell) :
  field k ks (f <$> vs) = f <$> field k ks vs.
Proof.
  revert vs. induction ks as [| k' ks IH]; intros [| v vs]; simpl; try done.
  destruct (decide (k = k')); [done | apply IH].
Qed.

(** Row [i] of [prepare_rows], read at the label of a column. *)
Lemma prepare_rows_field (df : DataFrame) (k : string) (s : list cell) (i : nat) (v : cell) :
  lookup_column k (data df) = Some s ->
  (i < index df)%nat ->
  s !! i = Some v ->
  exists row,
    Sink.prepare_rows df !! i = Some row /\
    length row = length (columns df) /\
    field k (columns df) row = Some (if isna v then PyNone else v).
Proof.
  intros Hcol Hi Hv. eexists. split; [| split].
  - unfold Sink.prepare_rows. rewrite list_lookup_fmap, itertuples_lookup by done.
    reflexivity.
  - unfold columns. by rewrite !length_fmap.
  - rewrite field_fmap. unfold columns. by rewrite (field_of_row k i _ s Hcol), Hv.
Qed.

(** C7. For every column [k] of a frame handed to the Sink and every row
    [i]: the tuple [prepare_rows] builds for row [i] holds None at [k] when
    the frame's value there is missing (NaN, NaT or None), and the frame's
    value itself, unchanged, otherwise. *)
Theorem prepare_rows_nulls (df : DataFrame) (k : string) (s : list cell) (i : nat) (v : cell) :
  lookup_column k (data df) = Some s ->
  (i < index df)%nat ->
  s !! i = Some v ->
  exists row,
    Sink.prepare_rows df !! i = Some row /\
    length row = length (columns df) /\
    field k (columns df) row = Some (if isna v then PyNone else v) /\
    (isna v = true -> field k (columns df) row = Some PyNone) /\
    (isna v = false -> field k (columns df) row = Some v).
Proof.
  intros Hcol Hi Hv.
  destruct (prepare_rows_field df k s i v Hcol Hi Hv) as (row & Hrow & Hlen & Hfield).
  exists row. repeat split; try done; intros Hna; by rewrite Hfield, Hna.
Qed.

End FrameFacts.

(** ** Normalisation *)

Section NormalizerFacts.
Import Pandas Normalizer.
Context `{Scalars}.

Lemma select_index (ks : list string) (df df' : DataFrame) :
  select ks df = Ok df' -> index df' = index df.
Proof.
  unfold select. destruct (getitems ks df); simpl; [| done]. by intros [= <-].
Qed.

Lemma coerce_numeric_inv (k : string) (df df' : DataFrame) :
  coerce_numeric k df = Ok df' ->
  exists s, lookup_column k (data df) = Some s /\ df' = setitem k (to_numeric s) df.
Proof.
  unfold coerce_numeric, getitem.
  destruct (lookup_column k (data df)) as [s |]; simpl; [| done].
  intros [= <-]. by exists s.
Qed.

Lemma coerce_datetime_inv (k : string) (df df' : DataFrame) :
  coerce_datetime k df = Ok df' ->
  exists s, lookup_column k (data df) = Some s /\ df' = setitem k (to_datetime s) df.
Proof.
  unfold coerce_datetime, getitem.
  destruct (lookup_column k (data df)) as [s |]; simpl; [| done].
  intros [= <-]. by exists s.
Qed.

Lemma coerce_numeric_index (k : string) (df df' : DataFrame) :
  coerce_numeric k df = Ok df' -> index df' = index df.
Proof. by intros (s & _ & ->)%coerce_numeric_inv. Qed.

Lemma coerce_datetime_index (k : string) (df df' : DataFrame) :
  coerce_datetime k df = Ok df' -> index df' = index df.
Proof. by intros (s & _ & ->)%coerce_datetime_inv. Qed.

(** One step of a computation that went through. *)
Ltac bind_inv H x E :=
  lazymatch type of H with
  | mbind _ ?r = Ok _ =>
      destruct r as [x |] eqn:E; [| discriminate H];
      unfold mbind at 1, result_bind at 1 in H; cbv beta iota in H
  end.

(** What a run on at least one record went through. *)
Lemma markets_to_dataframe_inv (utcnow : timestamp) (r : record) (rs : list record)
    (df : DataFrame) :
  markets_to_dataframe utcnow (r :: rs) = Ok df ->
  exists df5 : DataFrame,
    index df5 = length (r :: rs) /\
    df = setitem "load_timestamp" (replicate (index df5) (Ts utcnow)) df5.
Proof.
  intros Hrun. unfold markets_to_dataframe in Hrun.
  set (jn := json_normalize (r :: rs)) in Hrun.
  set (present := filter (fun c => c ∈ columns jn) keep.*1) in Hrun.
  cbv zeta in Hrun.
  bind_inv Hrun df0 E0.
  set (df0' := rename _ df0) in Hrun.
  bind_inv Hrun df1 E1. bind_inv Hrun df2 E2.
  bind_inv Hrun df3 E3. bind_inv Hrun df4 E4.
  bind_inv Hrun df5 E5.
  injection Hrun as <-. exists df5. split; [| done].
  assert (index df4 = length (r :: rs)) as Hidx.
  { rewrite (coerce_numeric_index _ _ _ E4), (coerce_numeric_index _ _ _ E3),
      (coerce_numeric_index _ _ _ E2), (coerce_numeric_index _ _ _ E1).
    unfold df0'. cbn [rename index]. by rewrite (select_index _ _ _ E0). }
  destruct (decide ("last_updated" ∈ columns df4)).
  - by rewrite (coerce_datetime_index _ _ _ E5).
  - by injection E5 as <-.
Qed.

(** C6. All rows of the frame one call returns hold, in column
    [load_timestamp], the one clock reading [utcnow] of that call: a
    timestamp (not a missing value), whatever the records hold.  The frame
    has one row per record. *)
Theorem load_timestamp_uniform (utcnow : timestamp) (records : list record) (df : DataFrame) :
  markets_to_dataframe utcnow records = Ok df ->
  index df = length records /\
  forall row, row ∈ itertuples df ->
    field "load_timestamp" (columns df) row = Some (Ts utcnow) /\
    isna (Ts utcnow) = false.
Proof.
  intros Hrun. destruct records as [| r rs].
  - injection Hrun as <-. split; [done |]. intros row Hrow.
    cbn in Hrow. by apply elem_of_nil in Hrow.
  - apply markets_to_dataframe_inv in Hrun as (df5 & Hidx & ->).
    split; [done |]. intros row (i & Hi & ->)%elem_of_itertuples.
    split; [| done]. cbn [index setitem] in Hi. unfold columns.
    erewrite field_of_row by apply lookup_replace_column.
    by rewrite lookup_replicate_2.
Qed.

(** *** The frame of a call that returns *)

Lemma elem_of_union_keys (k : string) (ks seen : list string) :
  k ∈ union_keys seen ks <-> k ∈ seen \/ k ∈ ks.
Proof.
  revert seen. induction ks as [| k0 ks IH]; intros seen; simpl.
  - split; [by left | intros [? | ?%elem_of_nil]; done].
  - destruct (decide (k0 ∈ seen)) as [Hin | Hnin]; rewrite IH.
    + rewrite elem_of_cons. split; [tauto |]. intros [? | [-> | ?]]; tauto.
    + rewrite elem_of_app, list_elem_of_singleton, elem_of_cons. tauto.
Qed.

Lemma lookup_column_fmap (f : string -> list cell) (k : string) (ks : list string) :
  k ∈ ks -> lookup_column k ((fun k => (k, f k)) <$> ks) = Some (f k).
Proof.
  induction ks as [| k0 ks IH]; simpl; [by intros ?%elem_of_nil |].
  intros Hin. destruct (decide (k = k0)) as [-> | Hne]; [done |].
  apply IH. apply elem_of_cons in Hin as [? | ?]; done.
Qed.

Lemma lookup_column_None (k : string) (d : list (string * list cell)) :
  lookup_column k d = None <-> k ∉ d.*1.
Proof.
  induction d as [| [k0 s0] d IH]; simpl.
  - split; [intros _ ?%elem_of_nil; done | done].
  - destruct (decide (k = k0)) as [-> | Hne].
    + split; [done |]. intros Hnin. exfalso. apply Hnin. by left.
    + rewrite IH. rewrite not_elem_of_cons. tauto.
Qed.

Lemma columns_json_normalize (k : string) (records : list record) :
  k ∈ columns (json_normalize records) <-> exists r, r ∈ records /\ k ∈ r.*1.
Proof.
  unfold columns, json_normalize. cbn [data].
  rewrite <- list_fmap_compose. unfold compose. cbn [fst]. rewrite list_fmap_id.
  rewrite elem_of_union_keys. rewrite elem_of_nil.
  split.
  - intros [[] | Hin]. apply list_elem_of_join in Hin as (l & Hk & Hl).
    apply list_elem_of_fmap in Hl as (r & -> & Hr). by exists r.
  - intros (r & Hr & Hk). right. apply list_elem_of_join. exists (r.*1). split; [done |].
    apply list_elem_of_fmap. by exists r.
Qed.

Lemma lookup_json_normalize (k : string) (records : list record) :
  k ∈ columns (json_normalize records) ->
  lookup_column k (data (json_normalize records)) = Some (raw k <$> records).
Proof.
  intros Hin. unfold json_normalize in *. cbn [data].
  unfold columns in Hin. cbn [data] in Hin.
  rewrite <- list_fmap_compose in Hin. unfold compose in Hin. cbn [fst] in Hin.
  rewrite list_fmap_id in Hin.
  by rewrite (lookup_column_fmap (fun k => raw k <$> records)).
Qed.

Lemma getitems_present (ks : list string) (df : DataFrame) :
  (forall k, k ∈ ks -> k ∈ columns df) ->
  getitems ks df = Ok ((fun k => (k, column df k)) <$> ks).
Proof.
  induction ks as [| k ks IH]; intros Hin; cbn [getitems fmap list_fmap]; [done |].
  unfold getitem, column.
  destruct (lookup_column k (data df)) as [s |] eqn:Hk.
  - unfold mbind at 1, result_bind at 1. rewrite IH.
    + done.
    + intros k0 Hk0. apply Hin. by right.
  - apply lookup_column_None in Hk. exfalso. apply Hk, Hin. by left.
Qed.

Lemma lookup_column_renamed (ren : string -> string) (f : string -> list cell)
    (k : string) (ks : list string) :
  (forall k1 k2, k1 ∈ ks -> k2 ∈ ks -> ren k1 = ren k2 -> k1 = k2) ->
  k ∈ ks ->
  lookup_column (ren k) ((fun k => (ren k, f k)) <$> ks) = Some (f k).
Proof.
  induction ks as [| k0 ks IH]; intros Hinj Hin; cbn [fmap list_fmap lookup_column].
  - by apply elem_of_nil in Hin.
  - destruct (decide (ren k = ren k0)) as [Heq | Hne].
    + rewrite (Hinj k k0 Hin ltac:(by left) Heq). done.
    + apply IH.
      * intros k1 k2 H1 H2. apply Hinj; by right.
      * apply elem_of_cons in Hin as [-> | ?]; done.
Qed.

Lemma assoc_filter (P : string * string -> Prop) `{forall kv, Decision (P kv)} (k : string)
    (m : list (string * string)) :
  (forall v, P (k, v)) -> assoc k (filter P m) = assoc k m.
Proof.
  intros HP. induction m as [| [k0 v0] m IH]; [done |].
  rewrite filter_cons. cbn [assoc].
  destruct (decide (P (k0, v0))) as [HP0 | HP0]; cbn [assoc].
  - destruct (decide (k = k0)); done.
  - destruct (decide (k = k0)) as [-> | Hne]; [| done]. exfalso. apply HP0, HP.
Qed.

Lemma renamed_inj (k1 k2 : string) :
  k1 ∈ keep.*1 -> k2 ∈ keep.*1 -> renamed k1 = renamed k2 -> k1 = k2.
Proof.
  cbn [keep fmap list_fmap fst]. intros H1 H2.
  repeat (apply elem_of_cons in H1 as [-> | H1]);
    try (by apply elem_of_nil in H1);
    repeat (apply elem_of_cons in H2 as [-> | H2]);
    try (by apply elem_of_nil in H2);
    first [reflexivity | (intros Heq; vm_compute in Heq; discriminate Heq)].
Qed.

Lemma select_rename (records : list record) :
  let jn := json_normalize records in
  exists df0,
    select (present_of records) jn = Ok df0 /\
    rename (filter (fun kv => kv.1 ∈ present_of records) keep) df0 = projected records.
Proof.
  intros jn. subst jn. eexists. split.
  - unfold select. rewrite getitems_present; [reflexivity |].
    intros k Hk. by apply list_elem_of_filter in Hk as [Hk _].
  - unfold rename, projected. cbn [index data]. f_equal.
    rewrite <- list_fmap_compose. apply Forall_fmap_ext_1, Forall_forall.
    intros k Hk. unfold compose. f_equal.
    + unfold renamed. f_equal.
      by apply assoc_filter.
    + unfold column. apply list_elem_of_filter in Hk as [Hk _].
      by rewrite lookup_json_normalize.
Qed.

Lemma present_of_keep (k : string) (records : list record) :
  k ∈ present_of records <-> k ∈ keep.*1 /\ k ∈ columns (json_normalize records).
Proof. unfold present_of. rewrite list_elem_of_filter. tauto. Qed.

(** A whitelisted field that some record has is a column of the projected
    frame, under its new name, with the raw values. *)
Lemma lookup_projected (k : string) (records : list record) :
  k ∈ keep.*1 ->
  k ∈ columns (json_normalize records) ->
  lookup_column (renamed k) (data (projected records)) = Some (raw k <$> records).
Proof.
  intros Hkeep Hcol. unfold projected. cbn [data].
  apply (lookup_column_renamed renamed (fun k => raw k <$> records)).
  - intros k1 k2 [H1 _]%present_of_keep [H2 _]%present_of_keep. by apply renamed_inj.
  - by apply present_of_keep.
Qed.

Lemma coerce_numeric_lookup (k k' : string) (df df' : DataFrame) :
  coerce_numeric k df = Ok df' ->
  lookup_column k' (data df')
  = if decide (k = k') then to_numeric <$> lookup_column k' (data df)
    else lookup_column k' (data df).
Proof.
  intros (s & Hs & ->)%coerce_numeric_inv. cbn [setitem data].
  destruct (decide (k = k')) as [<- | Hne].
  - by rewrite lookup_replace_column, Hs.
  - by rewrite lookup_replace_column_ne.
Qed.

Lemma coerce_datetime_lookup (k k' : string) (df df' : DataFrame) :
  coerce_datetime k df = Ok df' ->
  lookup_column k' (data df')
  = if decide (k = k') then to_datetime <$> lookup_column k' (data df)
    else lookup_column k' (data df).
Proof.
  intros (s & Hs & ->)%coerce_datetime_inv. cbn [setitem data].
  destruct (decide (k = k')) as [<- | Hne].
  - by rewrite lookup_replace_column, Hs.
  - by rewrite lookup_replace_column_ne.
Qed.

Lemma coerce_numeric_present (k : string) (df : DataFrame) (s : list cell) :
  lookup_column k (data df) = Some s ->
  coerce_numeric k df = Ok (setitem k (to_numeric s) df).
Proof. intros Hs. unfold coerce_numeric, getitem. by rewrite Hs. Qed.

Lemma markets_to_dataframe_cons (utcnow : timestamp) (r : record) (rs : list record) :
  markets_to_dataframe utcnow (r :: rs) = coerced utcnow (projected (r :: rs)).
Proof.
  destruct (select_rename (r :: rs)) as (df0 & Hsel & Hren).
  unfold markets_to_dataframe. cbv zeta. fold (present_of (r :: rs)).
  rewrite Hsel. unfold mbind at 1, result_bind at 1. cbv beta iota.
  by rewrite Hren.
Qed.

(** What lines 102-110 do to the column labelled [k']. *)
Lemma coerced_lookup (utcnow : timestamp) (df df' : DataFrame) (k' : string) :
  coerced utcnow df = Ok df' ->
  lookup_column k' (data df')
  = if decide ("load_timestamp" = k') then Some (replicate (index df) (Ts utcnow))
    else if decide ("last_updated" = k') then to_datetime <$> lookup_column k' (data df)
    else if decide (k' ∈ ["current_price"; "market_cap"; "total_volume"; "pct_change_24h"])
         then to_numeric <$> lookup_column k' (data df)
    else lookup_column k' (data df).
Proof.
  unfold coerced. intros Hrun.
  bind_inv Hrun df1 E1. bind_inv Hrun df2 E2.
  bind_inv Hrun df3 E3. bind_inv Hrun df4 E4. bind_inv Hrun df5 E5.
  injection Hrun as <-. cbn [setitem data].
  assert (Hidx : index df5 = index df).
  { transitivity (index df4).
    - destruct (decide ("last_updated" ∈ columns df4));
        [by apply coerce_datetime_index in E5 | by injection E5 as <-].
    - rewrite (coerce_numeric_index _ _ _ E4), (coerce_numeric_index _ _ _ E3),
        (coerce_numeric_index _ _ _ E2). by apply coerce_numeric_index in E1. }
  destruct (decide ("load_timestamp" = k')) as [<- | Hlt].
  { by rewrite lookup_replace_column, Hidx. }
  rewrite lookup_replace_column_ne by done.
  assert (H5 : lookup_column k' (data df5)
               = if decide ("last_updated" = k') then to_datetime <$> lookup_column k' (data df4)
                 else lookup_column k' (data df4)).
  { destruct (decide ("last_updated" ∈ columns df4)) as [Hin | Hnin].
    - by apply coerce_datetime_lookup.
    - injection E5 as <-. destruct (decide ("last_updated" = k')) as [<- | ?]; [| done].
      apply lookup_column_None in Hnin. by rewrite Hnin. }
  rewrite H5.
  rewrite (coerce_numeric_lookup _ k' _ _ E4), (coerce_numeric_lookup _ k' _ _ E3),
    (coerce_numeric_lookup _ k' _ _ E2), (coerce_numeric_lookup _ k' _ _ E1).
  destruct (decide ("last_updated" = k')) as [<- | Hlu].
  { repeat (rewrite decide_False by discriminate). done. }
  destruct (decide (k' ∈ _)) as [Hin | Hnin].
  - repeat (apply elem_of_cons in Hin as [-> | Hin]);
      [.. | by apply elem_of_nil in Hin];
      repeat first [rewrite decide_True by reflexivity | rewrite decide_False by discriminate];
      done.
  - repeat (rewrite decide_False); [done | ..];
      intros <-; apply Hnin; repeat constructor.
Qed.

Lemma lookup_projected_None (k : string) (records : list record) :
  k ∈ keep.*1 ->
  k ∉ columns (json_normalize records) ->
  lookup_column (renamed k) (data (projected records)) = None.
Proof.
  intros Hkeep Hcol. apply lookup_column_None. unfold projected. cbn [data].
  rewrite <- list_fmap_compose. unfold compose. cbn [fst].
  intros (k2 & Heq & [H2 Hc2]%present_of_keep)%list_elem_of_fmap.
  apply Hcol. by rewrite (renamed_inj k k2 Hkeep H2 Heq).
Qed.

Lemma coerced_returns_iff (utcnow : timestamp) (df : DataFrame) :
  (exists df', coerced utcnow df = Ok df') <->
  (forall k', k' ∈ numeric_columns -> is_Some (lookup_column k' (data df))).
Proof.
  split.
  - intros [df' Hrun] k' Hin. unfold coerced in Hrun.
    bind_inv Hrun df1 E1. bind_inv Hrun df2 E2.
    bind_inv Hrun df3 E3. bind_inv Hrun df4 E4.
    apply coerce_numeric_inv in E4 as (s4 & H4 & _).
    apply coerce_numeric_inv in E3 as (s3 & H3 & ->).
    apply coerce_numeric_inv in E2 as (s2 & H2 & ->).
    apply coerce_numeric_inv in E1 as (s1 & H1 & ->).
    cbn [setitem data] in H2, H3, H4.
    rewrite !lookup_replace_column_ne in H4 by discriminate.
    rewrite !lookup_replace_column_ne in H3 by discriminate.
    rewrite !lookup_replace_column_ne in H2 by discriminate.
    unfold numeric_columns in Hin.
    repeat (apply elem_of_cons in Hin as [-> | Hin]); [eauto .. |].
    by apply elem_of_nil in Hin.
  - intros Hall.
    destruct (Hall "current_price" ltac:(repeat constructor)) as [s1 H1].
    destruct (Hall "market_cap" ltac:(repeat constructor)) as [s2 H2].
    destruct (Hall "total_volume" ltac:(repeat constructor)) as [s3 H3].
    destruct (Hall "pct_change_24h" ltac:(repeat constructor)) as [s4 H4].
    unfold coerced.
    rewrite (coerce_numeric_present _ _ _ H1). unfold mbind at 1, result_bind at 1. cbv beta iota.
    rewrite (coerce_numeric_present _ _ s2);
      [| cbn [setitem data]; by rewrite !lookup_replace_column_ne by discriminate].
    unfold mbind at 1, result_bind at 1. cbv beta iota.
    rewrite (coerce_numeric_present _ _ s3);
      [| cbn [setitem data]; by rewrite !lookup_replace_column_ne by discriminate].
    unfold mbind at 1, result_bind at 1. cbv beta iota.
    rewrite (coerce_numeric_present _ _ s4);
      [| cbn [setitem data]; by rewrite !lookup_replace_column_ne by discriminate].
    unfold mbind at 1, result_bind at 1. cbv beta iota.
    match goal with |- context [decide (?k ∈ columns ?d)] =>
      destruct (decide (k ∈ columns d)) as [Hin | Hnin];
      [ destruct (lookup_column k (data d)) as [s5 |] eqn:H5;
        [ unfold coerce_datetime, getitem; rewrite H5; by eexists
        | by apply lookup_column_None in H5 ]
      | by eexists ]
    end.
Qed.

(** A batch of at least one record comes through exactly when each of the
    four fields of lines 102-105 occurs in one of its records. *)
Lemma normalize_returns_iff (utcnow : timestamp) (r : record) (rs : list record) :
  (exists df, markets_to_dataframe utcnow (r :: rs) = Ok df) <->
  (forall k, k ∈ numeric_fields -> exists r', r' ∈ r :: rs /\ k ∈ r'.*1).
Proof.
  rewrite markets_to_dataframe_cons, coerced_returns_iff.
  assert (Hcol : forall k, k ∈ keep.*1 ->
            (is_Some (lookup_column (renamed k) (data (projected (r :: rs))))
             <-> exists r', r' ∈ r :: rs /\ k ∈ r'.*1)).
  { intros k Hkeep. rewrite <- columns_json_normalize.
    destruct (decide (k ∈ columns (json_normalize (r :: rs)))) as [Hin | Hnin].
    - rewrite lookup_projected by done. split; [done | by eexists].
    - rewrite lookup_projected_None by done. split; [by intros [? ?] | done]. }
  split.
  - intros Hall k Hk. unfold numeric_fields in Hk.
    repeat (apply elem_of_cons in Hk as [-> | Hk]); [.. | by apply elem_of_nil in Hk];
      (apply Hcol; [repeat constructor | apply Hall; repeat constructor]).
  - intros Hall k' Hk'. unfold numeric_columns in Hk'.
    repeat (apply elem_of_cons in Hk' as [-> | Hk']); [.. | by apply elem_of_nil in Hk'].
    + apply (Hcol "current_price"); [repeat constructor | apply Hall; repeat constructor].
    + apply (Hcol "market_cap"); [repeat constructor | apply Hall; repeat constructor].
    + apply (Hcol "total_volume"); [repeat constructor | apply Hall; repeat constructor].
    + apply (Hcol "price_change_percentage_24h");
        [repeat constructor | apply Hall; repeat constructor].
Qed.

(** The frame of a call that returns, column by column: a whitelisted
    field that occurs in the batch gives the column of its raw values, one
    per record and in the order of the records, coerced by lines 102-108;
    a whitelisted field that occurs in no record gives no column. *)
Lemma normalize_column (utcnow : timestamp) (records : list record) (df : DataFrame)
    (k k' : string) :
  markets_to_dataframe utcnow records = Ok df ->
  (k, k') ∈ keep ->
  lookup_column k' (data df)
  = if decide (k ∈ columns (json_normalize records))
    then Some (coerce_column k' (raw k <$> records))
    else None.
Proof.
  intros Hrun Hkeep. destruct records as [| r rs].
  - injection Hrun as <-. rewrite decide_False; [done |].
    intros (r & Hr & _)%columns_json_normalize. by apply elem_of_nil in Hr.
  - rewrite markets_to_dataframe_cons in Hrun.
    rewrite (coerced_lookup _ _ _ k' Hrun).
    assert (Hk : k ∈ keep.*1) by (apply list_elem_of_fmap; by exists (k, k')).
    pose proof (lookup_projected k (r :: rs) Hk) as Hsome.
    pose proof (lookup_projected_None k (r :: rs) Hk) as Hnone.
    unfold keep in Hkeep.
    repeat (apply elem_of_cons in Hkeep as [[= -> ->] | Hkeep]);
      [.. | by apply elem_of_nil in Hkeep];
      (destruct (decide (_ ∈ columns (json_normalize (r :: rs)))) as [Hin | Hnin];
       [ specialize (Hsome Hin); clear Hnone;
         match type of Hsome with
         | lookup_column ?x _ = _ =>
             let y := eval vm_compute in x in change x with y in Hsome
         end;
         rewrite Hsome; reflexivity
       | specialize (Hnone Hnin); clear Hsome;
         match type of Hnone with
         | lookup_column ?x _ = _ =>
             let y := eval vm_compute in x in change x with y in Hnone
         end;
         rewrite Hnone; reflexivity ]).
Qed.

(** A record without [id], in a batch that comes through and in which some
    record has [id]: its row is there, and [prepare_rows] hands it to the
    Sink with None for [coin_id], the column the Sink's table declares
    NOT NULL. *)
Lemma null_coin_id_reaches_sink (utcnow : timestamp) (records : list record)
    (df : DataFrame) (i : nat) (r : record) :
  markets_to_dataframe utcnow records = Ok df ->
  "id" ∈ columns (json_normalize records) ->
  records !! i = Some r ->
  dict_get "id" r = None ->
  (exists row,
      Sink.prepare_rows df !! i = Some row /\
      field "coin_id" (columns df) row = Some PyNone) /\
  Sink.nullable <$> head (Sink.c Sink.crypto_prices) = Some false.
Proof.
  intros Hrun Hid Hi Hr. split; [| reflexivity].
  pose proof (normalize_column utcnow records df "id" "coin_id" Hrun) as Hcol.
  rewrite decide_True in Hcol by done.
  specialize (Hcol ltac:(repeat constructor)).
  change (coerce_column "coin_id" (raw "id" <$> records)) with (raw "id" <$> records) in Hcol.
  destruct (prepare_rows_field df "coin_id" _ i (raw "id" r) Hcol) as (row & Hrow & _ & Hfield).
  - destruct records as [| r0 rs]; [done |].
    apply markets_to_dataframe_inv in Hrun as (df5 & Hidx & ->).
    cbn [setitem index]. rewrite Hidx. by apply lookup_lt_Some in Hi.
  - by rewrite list_lookup_fmap, Hi.
  - exists row. split; [done |]. rewrite Hfield. unfold raw. by rewrite Hr.
Qed.

(** *** Batches the Normalizer does not get through *)

(** C2, where the code departs from it.  A batch in which no record has
    [current_price] ends in a KeyError: lines 102-105 read the four numeric
    columns without the test line 107 makes for [last_updated].  And a
    text that is no number in [high_24h], a column lines 102-105 leave out,
    comes through as that text, not as a missing value. *)
Theorem normalize_missing_column_raises (utcnow : timestamp) :
  markets_to_dataframe utcnow [[("id", JString "bitcoin"); ("symbol", JString "btc")]]
  = Raise (KeyError "current_price")
  /\
  exists df,
    markets_to_dataframe utcnow
      [[("id", JString "bitcoin"); ("current_price", JString "65000.5");
        ("market_cap", JNull); ("total_volume", JNull); ("high_24h", JString "n/a");
        ("price_change_percentage_24h", JNull)]] = Ok df /\
    lookup_column "high_24h" (data df) = Some [Str "n/a"] /\
    isna (Str "n/a") = false.
Proof.
  split; [vm_compute; reflexivity |].
  eexists. split; [vm_compute; reflexivity |]. split; reflexivity.
Qed.

(** C8, where the code departs from it.  Two records with the same [id],
    neither with [price_change_percentage_24h]: no row comes out, the call
    ends in a KeyError (the defect of lines 102-105 again). *)
Theorem normalize_emits_no_row_on_KeyError (utcnow : timestamp) :
  markets_to_dataframe utcnow
    [[("id", JString "bitcoin"); ("current_price", JString "1");
      ("market_cap", JString "2"); ("total_volume", JString "3")];
     [("id", JString "bitcoin"); ("current_price", JString "4");
      ("market_cap", JString "5"); ("total_volume", JString "6")]]
  = Raise (KeyError "pct_change_24h").
Proof. vm_compute. reflexivity. Qed.

(** C10, where the code departs from it.  One record with [id], one
    without, and [current_price] in neither: no row is emitted for the
    record without [id], the call ends in a KeyError (the defect of lines
    102-105 again). *)
Theorem normalize_null_coin_id_batch_raises (utcnow : timestamp) :
  markets_to_dataframe utcnow
    [[("id", JString "bitcoin"); ("symbol", JString "btc"); ("name", JString "Bitcoin")];
     [("symbol", JString "eth"); ("name", JString "Ethereum")]]
  = Raise (KeyError "current_price").
Proof. vm_compute. reflexivity. Qed.

End NormalizerFacts.

(** ** The store *)

Section SinkFacts.
Import Pandas Sink.
Context `{Scalars}.

(** The key of the row built from a parameter tuple is the key of the
    tuple, in a relation that has the conflict target's columns. *)
Lemma field_new_row (k : string) (cols : list db_column) (params : list cell) :
  k ∈ col_name <$> cols ->
  default PyNone (field k (col_name <$> cols) (new_row cols params))
  = default PyNone (field k insert_columns params).
Proof.
  induction cols as [| col cols IH]; simpl.
  - by intros ?%elem_of_nil.
  - intros Hin. destruct (decide (k = col_name col)) as [-> | Hne]; [done |].
    apply IH. apply elem_of_cons in Hin as [? | ?]; done.
Qed.

Lemma project_new_row (cols : list db_column) (params : list cell) :
  insert_columns ⊆ col_name <$> cols ->
  project cols conflict_target (new_row cols params) = param_key params.
Proof.
  intros Hsub. unfold project, param_key, conflict_target.
  simpl. rewrite !field_new_row; [done | |]; apply Hsub; unfold insert_columns; repeat constructor.
Qed.

Lemma insert_inv (acc : sqltype -> cell -> bool) (rel rel' : relation) (params : list cell) :
  insert_on_conflict_do_nothing acc rel params = Ok rel' ->
  rel_columns rel' = rel_columns rel /\ rel_key rel' = rel_key rel /\
  has_arbiter rel = true /\
  insert_columns ⊆ col_name <$> rel_columns rel /\
  ((param_key params ∈ keys rel /\ rel' = rel) \/
   ((param_key params ∉ keys rel) /\ keys rel' = keys rel ++ [param_key params])).
Proof.
  unfold insert_on_conflict_do_nothing.
  destruct (bool_decide_reflect (insert_columns ⊆ col_name <$> rel_columns rel)) as [Hsub |];
    [| done].
  cbn [negb]. cbv zeta.
  destruct (negb (forallb _ _)); [done |].
  destruct (has_arbiter rel) eqn:Harb; [| done]. cbn [negb].
  destruct (existsb _ _); [done |].
  pose proof (project_new_row _ params Hsub) as Hk.
  destruct (bool_decide_reflect
              (project (rel_columns rel) conflict_target (new_row (rel_columns rel) params)
               ∈ keys rel)) as [Hin | Hnin].
  - rewrite Hk in Hin. intros [= <-]. repeat split; try done. by left.
  - rewrite Hk in Hnin. intros [= <-]. cbn. repeat split; try done. right. split; [done |].
    unfold keys. cbn [rel_rows rel_columns]. rewrite fmap_app. cbn [fmap list_fmap].
    by rewrite Hk.
Qed.

(** An insert that went through once goes through again, as a no-op, on
    any state of the relation that holds its key. *)
Lemma insert_again (acc : sqltype -> cell -> bool) (rel rel' rel2 : relation)
    (params : list cell) :
  insert_on_conflict_do_nothing acc rel params = Ok rel' ->
  rel_columns rel2 = rel_columns rel ->
  rel_key rel2 = rel_key rel ->
  param_key params ∈ keys rel2 ->
  insert_on_conflict_do_nothing acc rel2 params = Ok rel2.
Proof.
  intros Hrun Hcols Hkey Hin.
  assert (Harb : has_arbiter rel2 = has_arbiter rel) by (unfold has_arbiter; by rewrite Hkey).
  revert Hrun. unfold insert_on_conflict_do_nothing.
  rewrite Harb, Hcols, Hkey.
  destruct (bool_decide_reflect (insert_columns ⊆ col_name <$> rel_columns rel)) as [Hsub |];
    [| done].
  cbn [negb]. cbv zeta.
  destruct (negb (forallb _ _)); [done |].
  destruct (has_arbiter rel); [| done]. cbn [negb].
  destruct (existsb _ _); [done |].
  intros _. rewrite bool_decide_eq_true_2; [done |].
  rewrite <- Hcols at 1 2. rewrite (project_new_row _ params); [done |].
  by rewrite Hcols.
Qed.

Lemma executemany_inv (acc : sqltype -> cell -> bool) (rows : list (list cell)) :
  forall rel rel1 : relation,
    executemany acc rel rows = Ok rel1 ->
    rel_columns rel1 = rel_columns rel /\ rel_key rel1 = rel_key rel /\
    keys rel ⊆ keys rel1 /\
    (NoDup (keys rel) -> NoDup (keys rel1)) /\
    (rows <> [] -> has_arbiter rel = true) /\
    (forall params, params ∈ rows -> param_key params ∈ keys rel1) /\
    (forall rel2, rel_columns rel2 = rel_columns rel -> rel_key rel2 = rel_key rel ->
                  keys rel1 ⊆ keys rel2 -> executemany acc rel2 rows = Ok rel2).
Proof.
  induction rows as [| params rows IH]; intros rel rel1; cbn [executemany].
  - intros [= <-]. repeat split; try done. intros params Hin. by apply elem_of_nil in Hin.
  - destruct (mogrify params) as [[] |] eqn:Hmog; [| done].
    destruct (insert_on_conflict_do_nothing acc rel params) as [rel' |] eqn:Hins; [| done].
    unfold mbind, result_bind. intros Hrest.
    destruct (insert_inv _ _ _ _ Hins) as (Hc & Hk & Harb & _ & Hcase).
    destruct (IH _ _ Hrest) as (Hc1 & Hk1 & Hsub1 & Hnd1 & _ & Hall1 & Hagain1).
    assert (Hgrow : keys rel ⊆ keys rel' /\ param_key params ∈ keys rel' /\
                    (NoDup (keys rel) -> NoDup (keys rel'))).
    { destruct Hcase as [[Hin ->] | [Hnin Heq]]; [done |].
      rewrite Heq. repeat split.
      - intros k Hk'. apply elem_of_app. by left.
      - apply elem_of_app. right. by apply list_elem_of_singleton.
      - intros Hnd. apply NoDup_app. repeat split; [done | | apply NoDup_singleton].
        intros k Hk' ->%list_elem_of_singleton. done. }
    destruct Hgrow as (Hsub & Hin & Hnd).
    repeat split.
    + congruence.
    + congruence.
    + intros k Hk'. by apply Hsub1, Hsub.
    + intros Hnd0. by apply Hnd1, Hnd.
    + done.
    + intros p [-> | Hp]%elem_of_cons; [by apply Hsub1 | by apply Hall1].
    + intros rel2 Hc2 Hk2 Hsub2.
      rewrite (insert_again acc rel rel' rel2 params Hins Hc2 Hk2); [| by apply Hsub2, Hsub1].
      apply Hagain1; [congruence | congruence | done].
Qed.

Lemma filter_key_none {A B : Type} `{EqDecision B} (f : A -> B) (k : B) (l : list A) :
  k ∉ f <$> l -> filter (fun x => f x = k) l = [].
Proof.
  induction l as [| x l IH]; cbn [fmap list_fmap]; [done |].
  intros Hnin. rewrite filter_cons.
  destruct (decide (f x = k)) as [<- | Hne].
  - exfalso. apply Hnin. by left.
  - apply IH. intros Hin. apply Hnin. by right.
Qed.

(** Under a key that occurs, and occurs once among the keys, one row. *)
Lemma filter_key_one {A B : Type} `{EqDecision B} (f : A -> B) (k : B) (l : list A) :
  NoDup (f <$> l) -> k ∈ f <$> l -> length (filter (fun x => f x = k) l) = 1%nat.
Proof.
  induction l as [| x l IH]; cbn [fmap list_fmap].
  - by intros _ ?%elem_of_nil.
  - intros [Hnin Hnd]%NoDup_cons Hin. rewrite filter_cons.
    destruct (decide (f x = k)) as [<- | Hne].
    + by rewrite filter_key_none.
    + apply IH; [done |]. apply elem_of_cons in Hin as [-> | Hin]; done.
Qed.

(** What the conflict clause would give on a relation that has the key.
    Two [load_to_postgres] calls with the same frame, the first of which
    went through: the second goes through too, reports every row of the
    frame as attempted, and leaves the store exactly as the first call
    left it; under the key of each row of the frame the store then holds
    exactly one row.  The first call goes through only on a relation with
    a unique key on the conflict target, which the relation of the
    bootstrap is not (see below). *)
Lemma load_twice_one_row (s s1 : store) (df : DataFrame) (elapsed1 elapsed2 : Q)
    (rep1 : report) :
  unique_keys s ->
  load_to_postgres s df elapsed1 = (s1, Ok rep1) ->
  (exists rep2,
      load_to_postgres s1 df elapsed2 = (s1, Ok rep2) /\
      attempted rep2 = index df) /\
  (forall params, params ∈ prepare_rows df ->
                  length (persisted s1 (param_key params)) = 1%nat).
Proof.
  intros Huniq. unfold load_to_postgres.
  pose proof (length_prepare_rows df) as Hlen.
  destruct (prepare_rows df) as [| p rows] eqn:Hrows.
  - intros [= <- <-]. split.
    + eexists. split; [reflexivity |]. by rewrite <- Hlen.
    + intros params Hin. by apply elem_of_nil in Hin.
  - destruct (relations s !! "crypto_prices") as [rel |] eqn:Hrel;
      [| by destruct (mogrify p)].
    destruct (executemany (accepts s) rel (p :: rows)) as [rel1 |] eqn:Hexec; [| done].
    intros [= <- <-].
    destruct (executemany_inv _ _ _ _ Hexec)
      as (Hc & Hk & Hsub & Hnd & Harb & Hall & Hagain).
    cbn [with_relations relations accepts]. rewrite lookup_insert_eq.
    rewrite (Hagain rel1 Hc Hk) by (by intros k0 Hk0).
    split.
    + eexists. split.
      * unfold with_relations. cbn [relations accepts]. by rewrite insert_insert_eq.
      * exact Hlen.
    + intros params Hin. unfold persisted, with_relations. cbn [relations].
      rewrite lookup_insert_eq.
      apply filter_key_one; [| by apply Hall].
      apply Hnd, (Huniq rel Hrel). by apply Harb.
Qed.

(** *** Schema bootstrap *)

Lemma bootstrap_relation (s : store) :
  exists rel, relations (create_crypto_prices_table s).1 !! "crypto_prices" = Some rel /\
              (relations s !! "crypto_prices" = None -> rel = create_table crypto_prices) /\
              (forall rel0, relations s !! "crypto_prices" = Some rel0 -> rel = rel0).
Proof.
  unfold create_crypto_prices_table, create_all. cbn [foldl fst].
  change (tablename crypto_prices) with "crypto_prices".
  destruct (relations s !! "crypto_prices") as [rel0 |] eqn:Hrel.
  - exists rel0. repeat split; [done | done | congruence].
  - eexists. cbn [with_relations relations]. rewrite lookup_insert_eq.
    repeat split; done.
Qed.

(** Calling the bootstrap on a store it has already been called on changes
    nothing and prints that the table exists. *)
Lemma bootstrap_twice (s : store) :
  create_crypto_prices_table (create_crypto_prices_table s).1
  = ((create_crypto_prices_table s).1, TableExists).
Proof.
  destruct (bootstrap_relation s) as (rel & Hrel & _).
  set (s1 := (create_crypto_prices_table s).1) in *.
  unfold create_crypto_prices_table at 1, create_all. cbn [foldl].
  change (tablename crypto_prices) with "crypto_prices". rewrite Hrel.
  rewrite decide_True; [done |].
  apply elem_of_elements, elem_of_dom. by exists rel.
Qed.

(** C3, at a schema without the table.  The bootstrap marks [coin_id] and
    [load_timestamp] as primary-key columns on the Column objects, after
    the Table was built; the table's constraint stays empty, and the
    relation that is created has no primary key, hence no unique key for
    the conflict target of the insert. *)
Theorem bootstrap_creates_no_primary_key (acc : sqltype -> cell -> bool) :
  name <$> filter (fun col => primary_key col = true) (c crypto_prices)
  = ["coin_id"; "load_timestamp"] /\
  constraint_pk crypto_prices = [] /\
  exists rel,
    relations (create_crypto_prices_table {| relations := ∅; accepts := acc |}).1
      !! "crypto_prices" = Some rel /\
    rel_key rel = [] /\
    has_arbiter rel = false.
Proof.
  split; [reflexivity |]. split; [reflexivity |].
  exists (create_table crypto_prices). split; [| split; reflexivity].
  unfold create_crypto_prices_table, create_all. cbn [foldl fst relations].
  rewrite lookup_empty. cbn [with_relations relations].
  apply lookup_insert_eq.
Qed.

(** On a relation without a unique key on the conflict target, a load of
    at least one row is refused, with an exception that does not depend on
    the clock, and the store stays as it was. *)
Lemma load_without_arbiter (s : store) (rel : relation) (df : DataFrame) :
  relations s !! "crypto_prices" = Some rel ->
  has_arbiter rel = false ->
  (0 < index df)%nat ->
  exists e, forall elapsed, load_to_postgres s df elapsed = (s, Raise e).
Proof.
  intros Hrel Harb Hpos. unfold load_to_postgres.
  pose proof (length_prepare_rows df) as Hlen.
  destruct (prepare_rows df) as [| p rows]; [cbn in Hlen; lia |].
  rewrite Hrel. cbn [executemany].
  destruct (mogrify p) as [[] |]; [| by eexists].
  unfold insert_on_conflict_do_nothing. rewrite Harb.
  destruct (negb (bool_decide (insert_columns ⊆ _))); [by eexists |].
  cbv zeta. destruct (negb (forallb _ _)); by eexists.
Qed.

(** The relation the bootstrap creates where there was none. *)
Lemma bootstrap_fresh (s0 : store) :
  relations s0 !! "crypto_prices" = None ->
  relations (create_crypto_prices_table s0).1 !! "crypto_prices"
  = Some (create_table crypto_prices).
Proof.
  intros Hnone. destruct (bootstrap_relation s0) as (rel & Hrel & Hfresh & _).
  by rewrite Hrel, (Hfresh Hnone).
Qed.

(** X15. On the relation the bootstrap creates, every load of at least one
    row raises, and the store stays as it was: the table stays empty. *)
Lemma load_after_bootstrap_raises (acc : sqltype -> cell -> bool) (df : DataFrame)
    (elapsed : Q) :
  let s := (create_crypto_prices_table {| relations := ∅; accepts := acc |}).1 in
  (0 < index df)%nat ->
  (exists e, load_to_postgres s df elapsed = (s, Raise e)) /\
  (forall key, persisted s key = []).
Proof.
  intros s Hpos.
  assert (Hrel : relations s !! "crypto_prices" = Some (create_table crypto_prices))
    by (apply bootstrap_fresh; apply lookup_empty).
  split.
  - destruct (load_without_arbiter s _ df Hrel eq_refl Hpos) as [e He]. by exists e.
  - intros key. unfold persisted. by rewrite Hrel.
Qed.

(** C1, on the table the program makes for itself.  After the bootstrap
    on a schema that has no [crypto_prices], two [load_to_postgres] calls
    with the same frame of at least one row both raise, the second the
    same exception as the first, and the store holds no row under any
    key: not the one row per key of the claim.  The relation was created
    without a primary key (C3), so nothing can stand behind the conflict
    clause of the insert. *)
Theorem load_twice_after_bootstrap_stores_nothing (s0 : store) (df : DataFrame)
    (elapsed1 elapsed2 : Q) :
  let s := (create_crypto_prices_table s0).1 in
  relations s0 !! "crypto_prices" = None ->
  (0 < index df)%nat ->
  exists e,
    load_to_postgres s df elapsed1 = (s, Raise e) /\
    load_to_postgres s df elapsed2 = (s, Raise e) /\
    forall key, persisted s key = [].
Proof.
  intros s Hnone Hpos.
  pose proof (bootstrap_fresh s0 Hnone) as Hrel. fold s in Hrel.
  destruct (load_without_arbiter s _ df Hrel eq_refl Hpos) as [e He].
  exists e. split_and!; [apply He | apply He |].
  intros key. unfold persisted. by rewrite Hrel.
Qed.

End SinkFacts.

(** ** More on the store *)

Section SinkMore.
Import Pandas Sink.
Context `{Scalars}.

(** An insert that goes through leaves the relation alone or adds the one
    row it built, last. *)
Lemma insert_rows (acc : sqltype -> cell -> bool) (rel rel' : relation) (params : list cell) :
  insert_on_conflict_do_nothing acc rel params = Ok rel' ->
  param_key params ∈ keys rel /\ rel' = rel \/
  (param_key params ∉ keys rel) /\
  rel' = {| rel_columns := rel_columns rel; rel_key := rel_key rel;
            rel_rows := rel_rows rel ++ [new_row (rel_columns rel) params] |}.
Proof.
  intros Hrun. pose proof (insert_inv _ _ _ _ Hrun) as (_ & _ & _ & Hsub & _).
  revert Hrun. unfold insert_on_conflict_do_nothing.
  destruct (negb (bool_decide _)); [done |]. cbv zeta.
  destruct (negb (forallb _ _)); [done |].
  destruct (negb (has_arbiter rel)); [done |].
  destruct (existsb _ _); [done |].
  pose proof (project_new_row _ params Hsub) as Hk.
  destruct (bool_decide_reflect
              (project (rel_columns rel) conflict_target (new_row (rel_columns rel) params)
               ∈ keys rel)) as [Hin | Hnin].
  - rewrite Hk in Hin. intros [= <-]. by left.
  - rewrite Hk in Hnin. intros [= <-]. by right.
Qed.

(** A tuple psycopg2 can fill the statement with has its eleven values. *)
Lemma mogrify_inv (params : list cell) (u : unit) :
  mogrify params = Ok u -> length params = length insert_columns.
Proof.
  unfold mogrify.
  destruct (Nat.ltb_spec (length params) (length insert_columns)); [done |].
  destruct (Nat.ltb_spec (length insert_columns) (length params)); [done |].
  intros _. lia.
Qed.

Lemma executemany_rows (acc : sqltype -> cell -> bool) (rows : list (list cell)) :
  forall rel rel1 : relation,
    executemany acc rel rows = Ok rel1 ->
    exists extra,
      rel_rows rel1 = rel_rows rel ++ extra /\
      (length extra <= length rows)%nat /\
      Forall (fun p => length p = length insert_columns) rows.
Proof.
  induction rows as [| params rows IH]; intros rel rel1; cbn [executemany].
  - intros [= <-]. exists []. by rewrite app_nil_r.
  - destruct (mogrify params) as [[] |] eqn:Hmog; [| done].
    destruct (insert_on_conflict_do_nothing acc rel params) as [rel' |] eqn:Hins; [| done].
    unfold mbind, result_bind. intros Hrest.
    destruct (IH _ _ Hrest) as (extra & Hrows & Hlen & Hall).
    pose proof (mogrify_inv _ _ Hmog) as Hp.
    destruct (insert_rows _ _ _ _ Hins) as [[_ ->] | [_ ->]].
    + exists extra. split_and!; [done | cbn; lia | by constructor].
    + cbn [rel_rows] in Hrows. exists (new_row (rel_columns rel) params :: extra).
      split_and!; [by rewrite Hrows, <- app_assoc | cbn; lia | by constructor].
Qed.

(** X5. A load that goes through only appends: it reports one attempt per
    row of the frame, leaves every other relation and every stored row of
    [crypto_prices] as it was and in place, keeps the columns and the key,
    and adds at most one row per row of the frame, after the stored ones. *)
Theorem load_appends_only (s s' : store) (df : DataFrame) (elapsed : Q) (rep : report) :
  load_to_postgres s df elapsed = (s', Ok rep) ->
  attempted rep = index df /\
  accepts s' = accepts s /\
  (forall n, n <> "crypto_prices" -> relations s' !! n = relations s !! n) /\
  (forall rel, relations s !! "crypto_prices" = Some rel ->
     exists rel' extra,
       relations s' !! "crypto_prices" = Some rel' /\
       rel_columns rel' = rel_columns rel /\ rel_key rel' = rel_key rel /\
       rel_rows rel' = rel_rows rel ++ extra /\
       (length extra <= index df)%nat).
Proof.
  unfold load_to_postgres. pose proof (length_prepare_rows df) as Hlen.
  destruct (prepare_rows df) as [| p rows] eqn:Hrows.
  - intros [= <- <-]. split_and!; try done.
    intros rel Hrel. exists rel, []. rewrite app_nil_r. split_and!; try done. cbn; lia.
  - destruct (relations s !! "crypto_prices") as [rel |] eqn:Hrel;
      [| by destruct (mogrify p)].
    destruct (executemany (accepts s) rel (p :: rows)) as [rel1 |] eqn:Hexec; [| done].
    intros [= <- <-]. cbn [with_relations relations accepts attempted].
    split_and!; try done.
    + intros n Hn. by rewrite lookup_insert_ne.
    + intros rel0 [= <-].
      destruct (executemany_inv _ _ _ _ Hexec) as (Hc & Hk & _).
      destruct (executemany_rows _ _ _ _ Hexec) as (extra & Hr & Hle & _).
      exists rel1, extra. rewrite lookup_insert_eq. split_and!; try done. lia.
Qed.

(** X6. A load keeps the integrity of the key: when no two stored rows of
    the keyed relation agree on (coin_id, load_timestamp) before the call,
    none do after it, whether the call returns or raises. *)
Theorem load_preserves_unique_keys (s s' : store) (df : DataFrame) (elapsed : Q)
    (res : result report) :
  unique_keys s ->
  load_to_postgres s df elapsed = (s', res) ->
  unique_keys s'.
Proof.
  intros Huniq. unfold load_to_postgres.
  destruct (prepare_rows df) as [| p rows]; [by intros [= <- <-] |].
  destruct (relations s !! "crypto_prices") as [rel |] eqn:Hrel; [| by intros [= <- <-]].
  destruct (executemany (accepts s) rel (p :: rows)) as [rel1 |] eqn:Hexec;
    [| by intros [= <- <-]].
  intros [= <- <-]. intros rel' Hrel' Harb.
  cbn [with_relations relations] in Hrel'. rewrite lookup_insert_eq in Hrel'.
  injection Hrel' as <-.
  destruct (executemany_inv _ _ _ _ Hexec) as (_ & Hk & _ & Hnd & _).
  apply Hnd, (Huniq rel Hrel). unfold has_arbiter in *. by rewrite <- Hk.
Qed.

(** X7. A frame without rows is no load at all: the call returns
    attempted 0 and elapsed 0 and the store is not touched, not even looked
    at (the table need not exist). *)
Theorem load_no_rows_noop (s : store) (df : DataFrame) (elapsed : Q) :
  index df = 0%nat ->
  load_to_postgres s df elapsed = (s, Ok {| attempted := 0; elapsed_s := 0 |}).
Proof.
  intros Hidx. unfold load_to_postgres. pose proof (length_prepare_rows df) as Hlen.
  destruct (prepare_rows df) as [| p rows]; [done |]. cbn in Hlen. lia.
Qed.

(** The rows [prepare_rows] builds are as wide as the frame. *)
Lemma prepare_rows_width (df : DataFrame) (row : list cell) :
  row ∈ prepare_rows df -> length row = length (columns df).
Proof.
  unfold prepare_rows. intros (row0 & -> & Hin)%list_elem_of_fmap.
  apply elem_of_itertuples in Hin as (i & _ & ->).
  unfold columns. by rewrite !length_fmap.
Qed.

(** X8. A frame that has rows but not exactly the eleven columns of the
    INSERT is refused whole, by the driver and before anything is sent:
    with fewer columns the call raises the IndexError of a tuple that runs
    out, with more the TypeError of values that are left over; the store
    stays as it was, whatever it holds. *)
Theorem load_wrong_width_refused (s : store) (df : DataFrame) (elapsed : Q) :
  (0 < index df)%nat ->
  length (columns df) <> 11%nat ->
  exists e,
    load_to_postgres s df elapsed = (s, Raise e) /\
    ((length (columns df) < 11)%nat -> exists msg, e = IndexError msg) /\
    ((11 < length (columns df))%nat -> exists msg, e = TypeError msg).
Proof.
  intros Hpos Hwidth. unfold load_to_postgres.
  pose proof (length_prepare_rows df) as Hlen.
  pose proof (prepare_rows_width df) as Hw.
  destruct (prepare_rows df) as [| p rows]; [cbn in Hlen; lia |].
  specialize (Hw p ltac:(by left)).
  assert (Hmog : mogrify p
                 = Raise (if (length (columns df) <? 11)%nat
                          then IndexError "tuple index out of range"
                          else TypeError "not all arguments converted during string formatting")).
  { unfold mogrify. rewrite Hw. change (length insert_columns) with 11%nat.
    destruct (Nat.ltb_spec (length (columns df)) 11) as [Hlt | Hge]; [done |].
    destruct (Nat.ltb_spec 11 (length (columns df))) as [Hgt | Hle]; [done | lia]. }
  exists (if (length (columns df) <? 11)%nat
          then IndexError "tuple index out of range"
          else TypeError "not all arguments converted during string formatting").
  split_and!.
  - destruct (relations s !! "crypto_prices") as [rel |].
    + cbn [executemany]. by rewrite Hmog.
    + by rewrite Hmog.
  - intros Hlt. destruct (Nat.ltb_spec (length (columns df)) 11); [by eexists | lia].
  - intros Hgt. destruct (Nat.ltb_spec (length (columns df)) 11); [lia | by eexists].
Qed.

(** X9. No missing-value marker of pandas reaches the driver: there is one
    tuple per row of the frame, each as wide as the frame, and no tuple
    holds NaN or NaT (a missing value is None). *)
Theorem prepare_rows_shape (df : DataFrame) :
  length (prepare_rows df) = index df /\
  Forall (fun row => length row = length (columns df) /\
                     Forall (fun v => v <> NaN /\ v <> NaT /\ (isna v = true -> v = PyNone)) row)
         (prepare_rows df).
Proof.
  split; [apply length_prepare_rows |].
  apply Forall_forall. intros row Hrow. split; [by apply prepare_rows_width |].
  unfold prepare_rows in Hrow. apply list_elem_of_fmap in Hrow as (row0 & -> & _).
  apply Forall_forall. intros v (v0 & -> & _)%list_elem_of_fmap.
  destruct v0; cbn; split_and!; done.
Qed.

Lemma zip_fmap_elem {A B : Type} (f : A -> B) (x : A) (l : list A) :
  x ∈ l -> In (x, f x) (zip l (f <$> l)).
Proof.
  induction l as [| y l IH]; [by intros ?%elem_of_nil |].
  intros [-> | Hin]%elem_of_cons; cbn; [by left | right; by apply IH].
Qed.

(** A tuple whose [coin_id] is None is never inserted, in no relation. *)
Lemma insert_null_coin_id (acc : sqltype -> cell -> bool) (rel : relation)
    (params : list cell) :
  field "coin_id" insert_columns params = Some PyNone ->
  exists e, insert_on_conflict_do_nothing acc rel params = Raise e.
Proof.
  intros Hnull. unfold insert_on_conflict_do_nothing.
  destruct (bool_decide_reflect (insert_columns ⊆ col_name <$> rel_columns rel)) as [Hsub |];
    [| by eexists].
  cbn [negb]. cbv zeta.
  destruct (negb (forallb _ _)); [by eexists |].
  destruct (has_arbiter rel) eqn:Harb; [| by eexists]. cbn [negb].
  match goal with |- context [existsb ?f ?l] => assert (Hex : existsb f l = true) end.
  { apply existsb_exists.
    assert (Hcol : "coin_id" ∈ col_name <$> rel_columns rel)
      by (apply Hsub; repeat constructor).
    apply list_elem_of_fmap in Hcol as (col & Hname & Hcol).
    exists (col, default PyNone (field (col_name col) insert_columns params)).
    split.
    - unfold new_row.
      apply (zip_fmap_elem
               (fun col => default PyNone (field (col_name col) insert_columns params))).
      done.
    - cbn [fst snd]. rewrite <- Hname, Hnull.
      apply andb_true_iff. split; [| by apply bool_decide_eq_true_2].
      apply orb_true_iff. right. apply bool_decide_eq_true_2.
      unfold has_arbiter in Harb. apply bool_decide_eq_true_1 in Harb as [Hset _].
      assert (Hin : "coin_id" ∈@{gset string} list_to_set (rel_key rel)).
      { rewrite Hset. apply elem_of_list_to_set. repeat constructor. }
      by apply elem_of_list_to_set in Hin. }
  rewrite Hex. by eexists.
Qed.

Lemma executemany_refused (acc : sqltype -> cell -> bool) (rows : list (list cell))
    (params : list cell) :
  params ∈ rows ->
  (forall rel, exists e, insert_on_conflict_do_nothing acc rel params = Raise e) ->
  forall rel, exists e, executemany acc rel rows = Raise e.
Proof.
  intros Hin Hbad. induction rows as [| p rows IH]; [by apply elem_of_nil in Hin |].
  intros rel. cbn [executemany].
  destruct (mogrify p) as [[] |]; [| by eexists].
  destruct (insert_on_conflict_do_nothing acc rel p) as [rel' |] eqn:Hins; [| by eexists].
  unfold mbind, result_bind. apply elem_of_cons in Hin as [-> | Hin].
  - destruct (Hbad rel) as [e He]. congruence.
  - by apply IH.
Qed.

(** X10. One tuple without [coin_id] fails the whole batch: when a row of
    the frame has a missing value in its first column (the [coin_id]
    parameter), the call raises and the store stays as it was, whatever
    relation it holds and whatever the other rows are. *)
Theorem load_null_coin_id_refused (s : store) (df : DataFrame) (elapsed : Q)
    (params : list cell) :
  params ∈ prepare_rows df ->
  field "coin_id" insert_columns params = Some PyNone ->
  exists e, load_to_postgres s df elapsed = (s, Raise e).
Proof.
  intros Hin Hnull. unfold load_to_postgres.
  destruct (prepare_rows df) as [| p rows] eqn:Hrows; [by apply elem_of_nil in Hin |].
  destruct (relations s !! "crypto_prices") as [rel |];
    [| destruct (mogrify p); by eexists].
  destruct (executemany_refused (accepts s) (p :: rows) params Hin
              (fun rel => insert_null_coin_id (accepts s) rel params Hnull) rel) as [e ->].
  by eexists.
Qed.

Lemma executemany_fresh (acc : sqltype -> cell -> bool) (rows : list (list cell)) :
  forall rel rel1 : relation,
    executemany acc rel rows = Ok rel1 ->
    NoDup (param_key <$> rows) ->
    (forall p, p ∈ rows -> param_key p ∉ keys rel) ->
    rel_rows rel1 = rel_rows rel ++ (new_row (rel_columns rel) <$> rows).
Proof.
  induction rows as [| params rows IH]; intros rel rel1; cbn [executemany].
  - intros [= <-] _ _. by rewrite app_nil_r.
  - destruct (mogrify params) as [[] |] eqn:Hmog; [| done].
    destruct (insert_on_conflict_do_nothing acc rel params) as [rel' |] eqn:Hins; [| done].
    unfold mbind, result_bind. intros Hrest [Hhead Hnd]%NoDup_cons Hfresh.
    destruct (insert_inv _ _ _ _ Hins) as (Hc & _ & _ & _ & Hkeys).
    destruct (insert_rows _ _ _ _ Hins) as [[Hin _] | [_ Hrel']].
    { exfalso. by apply (Hfresh params); [left |]. }
    destruct Hkeys as [[Hin _] | [_ Hkeys]]; [exfalso; by apply (Hfresh params); [left |] |].
    rewrite (IH _ _ Hrest Hnd).
    + rewrite Hc, Hrel'. cbn [rel_rows fmap list_fmap]. by rewrite <- app_assoc.
    + intros p Hp. rewrite Hkeys. intros [Hold | Hnew%list_elem_of_singleton]%elem_of_app.
      * by apply (Hfresh p); [right |].
      * apply Hhead. rewrite <- Hnew. apply list_elem_of_fmap. by exists p.
Qed.

(** X11. Insert-if-absent, the absent side: when the rows of the frame
    have pairwise different keys, none of them stored yet, a load that
    goes through stores every row of the frame, after the rows that were
    there and in the order of the frame; a column of the relation the
    INSERT does not name is NULL in the new rows. *)
Theorem load_fresh_keys_all_stored (s s' : store) (df : DataFrame) (elapsed : Q)
    (rep : report) (rel : relation) :
  load_to_postgres s df elapsed = (s', Ok rep) ->
  relations s !! "crypto_prices" = Some rel ->
  NoDup (param_key <$> prepare_rows df) ->
  (forall p, p ∈ prepare_rows df -> param_key p ∉ keys rel) ->
  exists rel',
    relations s' !! "crypto_prices" = Some rel' /\
    rel_rows rel' = rel_rows rel ++ (new_row (rel_columns rel) <$> prepare_rows df).
Proof.
  unfold load_to_postgres. intros Hrun Hrel Hnd Hfresh.
  destruct (prepare_rows df) as [| p rows] eqn:Hrows.
  - injection Hrun as <- <-. exists rel. by rewrite app_nil_r.
  - rewrite Hrel in Hrun.
    destruct (executemany (accepts s) rel (p :: rows)) as [rel1 |] eqn:Hexec; [| done].
    injection Hrun as <- <-. exists rel1. cbn [with_relations relations].
    rewrite lookup_insert_eq. split; [done |].
    by apply (executemany_fresh _ _ _ _ Hexec).
Qed.

Lemma executemany_stored (acc : sqltype -> cell -> bool) (rows : list (list cell)) :
  forall rel rel1 : relation,
    executemany acc rel rows = Ok rel1 ->
    (forall p, p ∈ rows -> param_key p ∈ keys rel) ->
    rel1 = rel.
Proof.
  induction rows as [| params rows IH]; intros rel rel1; cbn [executemany].
  - by intros [= <-] _.
  - destruct (mogrify params) as [[] |] eqn:Hmog; [| done].
    destruct (insert_on_conflict_do_nothing acc rel params) as [rel' |] eqn:Hins; [| done].
    unfold mbind, result_bind. intros Hrest Hstored.
    destruct (insert_rows _ _ _ _ Hins) as [[_ ->] | [Hnew _]].
    + apply (IH _ _ Hrest). intros p Hp. apply Hstored. by right.
    + exfalso. apply Hnew, Hstored. by left.
Qed.

(** X19. Insert-if-absent, the present side: never an update in place.
    When the key of every row of the frame is already stored, a load that
    goes through leaves the store exactly as it was, whatever the other
    values of the incoming rows are, and still reports every row as
    attempted. *)
Theorem load_stored_keys_changes_nothing (s s' : store) (df : DataFrame) (elapsed : Q)
    (rep : report) (rel : relation) :
  relations s !! "crypto_prices" = Some rel ->
  (forall p, p ∈ prepare_rows df -> param_key p ∈ keys rel) ->
  load_to_postgres s df elapsed = (s', Ok rep) ->
  s' = s /\ attempted rep = index df.
Proof.
  unfold load_to_postgres. intros Hrel Hstored.
  pose proof (length_prepare_rows df) as Hlen.
  destruct (prepare_rows df) as [| p rows] eqn:Hrows.
  - intros [= <- <-]. split; [done |]. by rewrite <- Hlen.
  - rewrite Hrel.
    destruct (executemany (accepts s) rel (p :: rows)) as [rel1 |] eqn:Hexec; [| done].
    intros [= <- <-]. rewrite (executemany_stored _ _ _ _ Hexec Hstored).
    split; [| done]. destruct s as [m acc]. unfold with_relations. cbn in *.
    f_equal. by apply insert_id.
Qed.

(** *** More on the bootstrap *)

(** X13. The bootstrap touches nothing that exists: a [crypto_prices]
    that is already there keeps its columns, key and rows, every other
    relation of the schema stays as it was, and so does the server. *)
Theorem bootstrap_keeps_existing (s : store) (n : string) :
  accepts (create_crypto_prices_table s).1 = accepts s /\
  (n <> "crypto_prices" \/ is_Some (relations s !! "crypto_prices") ->
   relations (create_crypto_prices_table s).1 !! n = relations s !! n).
Proof.
  unfold create_crypto_prices_table, create_all. cbn [foldl fst].
  change (tablename crypto_prices) with "crypto_prices".
  destruct (relations s !! "crypto_prices") as [rel0 |] eqn:Hrel; [done |].
  cbn [with_relations relations accepts]. split; [done |].
  intros [Hne | [? [=]]]. by rewrite lookup_insert_ne.
Qed.

End SinkMore.

(** ** From the Normalizer to the Sink *)

Section PipelineFacts.
Import Pandas Normalizer.
Context `{Scalars}.

Lemma replace_column_keys (k : string) (s : list cell) (d : list (string * list cell)) :
  (replace_column k s d).*1 = if decide (k ∈ d.*1) then d.*1 else d.*1 ++ [k].
Proof.
  induction d as [| [k0 s0] d IH]; cbn [replace_column fmap list_fmap fst].
  - rewrite decide_False; [done | by intros ?%elem_of_nil].
  - destruct (decide (k = k0)) as [-> | Hne]; cbn [fmap list_fmap fst].
    + rewrite decide_True; [done | by left].
    + rewrite IH. destruct (decide (k ∈ d.*1)) as [Hin | Hnin].
      * rewrite decide_True; [done | by right].
      * rewrite decide_False; [done |]. by intros [? | ?]%elem_of_cons.
Qed.

Lemma setitem_present_columns (k : string) (s s' : list cell) (df : DataFrame) :
  lookup_column k (data df) = Some s ->
  columns (setitem k s' df) = columns df.
Proof.
  intros Hs. unfold columns. cbn [setitem data]. rewrite replace_column_keys.
  rewrite decide_True; [done |].
  destruct (decide (k ∈ (data df).*1)) as [Hin | Hnin]; [done |].
  apply lookup_column_None in Hnin. congruence.
Qed.

Lemma coerce_numeric_columns (k : string) (df df' : DataFrame) :
  coerce_numeric k df = Ok df' -> columns df' = columns df.
Proof.
  intros (s & Hs & ->)%coerce_numeric_inv. by apply (setitem_present_columns k s).
Qed.

Lemma coerce_datetime_columns (k : string) (df df' : DataFrame) :
  coerce_datetime k df = Ok df' -> columns df' = columns df.
Proof.
  intros (s & Hs & ->)%coerce_datetime_inv. by apply (setitem_present_columns k s).
Qed.

Ltac bind_step H x E :=
  lazymatch type of H with
  | mbind _ ?r = Ok _ =>
      destruct r as [x |] eqn:E; [| discriminate H];
      unfold mbind at 1, result_bind at 1 in H; cbv beta iota in H
  end.

Lemma coerced_columns (utcnow : timestamp) (df df' : DataFrame) :
  coerced utcnow df = Ok df' ->
  "load_timestamp" ∉ columns df ->
  columns df' = columns df ++ ["load_timestamp"].
Proof.
  unfold coerced. intros Hrun Hnew.
  bind_step Hrun df1 E1. bind_step Hrun df2 E2.
  bind_step Hrun df3 E3. bind_step Hrun df4 E4. bind_step Hrun df5 E5.
  injection Hrun as <-.
  assert (H5 : columns df5 = columns df).
  { transitivity (columns df4).
    - destruct (decide ("last_updated" ∈ columns df4));
        [by apply coerce_datetime_columns in E5 | by injection E5 as <-].
    - rewrite (coerce_numeric_columns _ _ _ E4), (coerce_numeric_columns _ _ _ E3),
        (coerce_numeric_columns _ _ _ E2). by apply coerce_numeric_columns in E1. }
  unfold columns in *. cbn [setitem data]. rewrite replace_column_keys, H5.
  by rewrite decide_False.
Qed.

Lemma columns_projected (records : list record) :
  columns (projected records) = renamed <$> present_of records.
Proof.
  unfold columns, projected. cbn [data]. by rewrite <- list_fmap_compose.
Qed.

Lemma renamed_present (records : list record) (k' : string) :
  k' ∈ renamed <$> present_of records -> k' ∈ renamed <$> keep.*1.
Proof.
  intros (k0 & -> & Hk0)%list_elem_of_fmap. apply list_elem_of_fmap.
  exists k0. split; [done | by apply present_of_keep in Hk0 as [? _]].
Qed.

Lemma normalized_columns (utcnow : timestamp) (r : record) (rs : list record)
    (df : DataFrame) :
  markets_to_dataframe utcnow (r :: rs) = Ok df ->
  columns df = (renamed <$> present_of (r :: rs)) ++ ["load_timestamp"].
Proof.
  rewrite markets_to_dataframe_cons. intros Hrun.
  rewrite (coerced_columns _ _ _ Hrun); rewrite columns_projected; [done |].
  intros Hin%renamed_present. vm_compute in Hin.
  repeat (apply elem_of_cons in Hin as [[=] | Hin]). by apply elem_of_nil in Hin.
Qed.


(** X20. The columns of a frame the Normalizer returns for a batch of at
    least one record: the whitelisted fields that occur in the batch, in
    the order of the whitelist and under their new names, then
    [load_timestamp]; any other field of the records is dropped. *)
Theorem normalize_columns (utcnow : timestamp) (r : record) (rs : list record)
    (df : DataFrame) :
  markets_to_dataframe utcnow (r :: rs) = Ok df ->
  columns df = (renamed <$> present_of (r :: rs)) ++ ["load_timestamp"] /\
  columns df ⊆ Sink.insert_columns.
Proof.
  intros Hrun. pose proof (normalized_columns _ _ _ _ Hrun) as Hcols.
  split; [done |]. rewrite Hcols.
  intros k [Hk%renamed_present | ->%list_elem_of_singleton]%elem_of_app.
  - vm_compute in Hk. unfold Sink.insert_columns.
    repeat (apply elem_of_cons in Hk as [-> | Hk]); [.. | by apply elem_of_nil in Hk];
      repeat constructor.
  - unfold Sink.insert_columns. repeat constructor.
Qed.

Lemma replace_column_Forall (P : string * list cell -> Prop) (k : string) (s : list cell)
    (d : list (string * list cell)) :
  P (k, s) -> Forall P d -> Forall P (replace_column k s d).
Proof.
  intros Hk. induction 1 as [| [k0 s0] d H0 Hd IH]; cbn [replace_column].
  - by constructor.
  - destruct (decide (k = k0)); constructor; done.
Qed.

Lemma lookup_column_elem (k : string) (s : list cell) (d : list (string * list cell)) :
  lookup_column k d = Some s -> (k, s) ∈ d.
Proof.
  induction d as [| [k0 s0] d IH]; cbn [lookup_column]; [done |].
  destruct (decide (k = k0)) as [-> | Hne].
  - intros [= ->]. by left.
  - intros Hs. right. by apply IH.
Qed.

Lemma coerce_numeric_rectangular (k : string) (df df' : DataFrame) :
  coerce_numeric k df = Ok df' -> rectangular df -> rectangular df'.
Proof.
  intros (s & Hs & ->)%coerce_numeric_inv Hrect. unfold rectangular. cbn [setitem data index].
  apply replace_column_Forall; [| done]. cbn. unfold to_numeric. rewrite length_fmap.
  apply lookup_column_elem in Hs.
  by apply (proj1 (Forall_forall _ _) Hrect (k, s)).
Qed.

Lemma coerce_datetime_rectangular (k : string) (df df' : DataFrame) :
  coerce_datetime k df = Ok df' -> rectangular df -> rectangular df'.
Proof.
  intros (s & Hs & ->)%coerce_datetime_inv Hrect. unfold rectangular. cbn [setitem data index].
  apply replace_column_Forall; [| done]. cbn. unfold to_datetime. rewrite length_fmap.
  apply lookup_column_elem in Hs.
  by apply (proj1 (Forall_forall _ _) Hrect (k, s)).
Qed.

Lemma coerced_rectangular (utcnow : timestamp) (df df' : DataFrame) :
  coerced utcnow df = Ok df' -> rectangular df -> rectangular df' /\ index df' = index df.
Proof.
  unfold coerced. intros Hrun Hrect.
  bind_step Hrun df1 E1. bind_step Hrun df2 E2.
  bind_step Hrun df3 E3. bind_step Hrun df4 E4. bind_step Hrun df5 E5.
  injection Hrun as <-.
  assert (H4 : rectangular df4 /\ index df4 = index df).
  { split.
    - eapply coerce_numeric_rectangular; [exact E4 |].
      eapply coerce_numeric_rectangular; [exact E3 |].
      eapply coerce_numeric_rectangular; [exact E2 |].
      eapply coerce_numeric_rectangular; [exact E1 | done].
    - rewrite (coerce_numeric_index _ _ _ E4), (coerce_numeric_index _ _ _ E3),
        (coerce_numeric_index _ _ _ E2). by apply coerce_numeric_index in E1. }
  assert (H5 : rectangular df5 /\ index df5 = index df).
  { destruct H4 as [H4 Hi4].
    destruct (decide ("last_updated" ∈ columns df4)).
    - split; [by eapply coerce_datetime_rectangular |].
      by rewrite (coerce_datetime_index _ _ _ E5).
    - by injection E5 as <-. }
  destruct H5 as [H5 Hi5]. split; [| done].
  unfold rectangular. cbn [setitem data index].
  apply replace_column_Forall; [cbn; by rewrite length_replicate | done].
Qed.

(** X21. A frame the Normalizer returns has one row per record of the
    batch, every column holds exactly one cell per record, and the Sink
    builds exactly one tuple per record from it. *)
Theorem normalize_one_row_per_record (utcnow : timestamp) (records : list record)
    (df : DataFrame) :
  markets_to_dataframe utcnow records = Ok df ->
  index df = length records /\
  Forall (fun c : string * list cell => length c.2 = length records) (data df) /\
  length (Sink.prepare_rows df) = length records.
Proof.
  intros Hrun.
  assert (Hrect : rectangular df /\ index df = length records).
  { destruct records as [| r rs].
    - injection Hrun as <-. split; [constructor | done].
    - rewrite markets_to_dataframe_cons in Hrun.
      apply coerced_rectangular in Hrun; [done |].
      unfold rectangular, projected. cbn [data index].
      apply Forall_fmap, Forall_forall. intros k _. cbn. by rewrite length_fmap. }
  destruct Hrect as [Hrect Hidx]. unfold rectangular in Hrect. rewrite Hidx in Hrect.
  split_and!; [done | done |]. by rewrite length_prepare_rows.
Qed.

Lemma coerce_column_fmap (k' : string) (s : list cell) :
  coerce_column k' s = coerce_cell k' <$> s.
Proof.
  unfold coerce_column, coerce_cell, to_datetime, to_numeric.
  destruct (decide (k' = "last_updated")); [done |].
  destruct (decide (k' ∈ numeric_columns)); [done |]. by rewrite list_fmap_id.
Qed.

(** X22. What the coercions leave in a frame the Normalizer returns: a
    numeric column holds numbers and NaN only, [last_updated] holds
    timestamps and NaT only; a text never stays in either. *)
Theorem normalize_coerced_cells (utcnow : timestamp) (records : list record)
    (df : DataFrame) (k' : string) (s : list cell) :
  markets_to_dataframe utcnow records = Ok df ->
  lookup_column k' (data df) = Some s ->
  (k' ∈ numeric_columns -> Forall (fun v => v = NaN \/ exists n, v = Num n) s) /\
  (k' = "last_updated" -> Forall (fun v => v = NaT \/ exists t, v = Ts t) s).
Proof.
  intros Hrun Hs.
  assert (Hcol : forall k, (k, k') ∈ keep -> s = coerce_cell k' <$> (raw k <$> records)).
  { intros k Hk. pose proof (normalize_column utcnow records df k k' Hrun Hk) as Hc.
    rewrite Hs in Hc. destruct (decide (k ∈ columns (json_normalize records))); [| done].
    injection Hc as ->. apply coerce_column_fmap. }
  split.
  - intros Hnum.
    assert (Hk : exists k, (k, k') ∈ keep).
    { unfold numeric_columns in Hnum.
      repeat (apply elem_of_cons in Hnum as [-> | Hnum]); [.. | by apply elem_of_nil in Hnum];
        eexists; unfold keep; repeat (first [left | right]); fail. }
    destruct Hk as [k Hk]. rewrite (Hcol k Hk).
    apply Forall_fmap, Forall_forall. intros v _. cbn. unfold coerce_cell.
    rewrite decide_False, decide_True; [| done |].
    + destruct v as [| | | n | str | t]; cbn; eauto.
      destruct (str_to_number str); cbn; eauto.
    + intros ->. unfold numeric_columns in Hnum.
      repeat (apply elem_of_cons in Hnum as [[=] | Hnum]). by apply elem_of_nil in Hnum.
  - intros ->. rewrite (Hcol "last_updated"); [| unfold keep; repeat constructor].
    apply Forall_fmap, Forall_forall. intros v _. cbn. unfold coerce_cell.
    rewrite decide_True by done.
    destruct v as [| | | n | str | t]; cbn; eauto.
    + destruct (number_to_datetime n); cbn; eauto.
    + destruct (str_to_datetime str); cbn; eauto.
Qed.

(** X23. Normalizer and [prepare_rows] together, value by value: the tuple
    the Sink gets for the [i]-th record of a batch holds, under the new
    name of a whitelisted field some record has, that record's value of
    the field, coerced as the column is, with None for a missing one.  The
    tuples come in the order of the records. *)
Theorem pipeline_row_values (utcnow : timestamp) (records : list record) (df : DataFrame)
    (k k' : string) (i : nat) (r : record) :
  markets_to_dataframe utcnow records = Ok df ->
  (k, k') ∈ keep ->
  k ∈ columns (json_normalize records) ->
  records !! i = Some r ->
  exists row,
    Sink.prepare_rows df !! i = Some row /\
    field k' (columns df) row
    = Some (let v := coerce_cell k' (raw k r) in if isna v then PyNone else v).
Proof.
  intros Hrun Hkeep Hin Hi.
  pose proof (normalize_column utcnow records df k k' Hrun Hkeep) as Hcol.
  rewrite decide_True, coerce_column_fmap in Hcol by done.
  destruct (prepare_rows_field df k' _ i (coerce_cell k' (raw k r)) Hcol)
    as (row & Hrow & _ & Hfield).
  - destruct records as [| r0 rs]; [done |].
    apply markets_to_dataframe_inv in Hrun as (df5 & Hidx & ->).
    cbn [setitem index]. rewrite Hidx. by apply lookup_lt_Some in Hi.
  - by rewrite !list_lookup_fmap, Hi.
  - by exists row.
Qed.

Lemma length_filter_lt {A : Type} (P : A -> Prop) `{forall x, Decision (P x)}
    (l : list A) (x : A) :
  x ∈ l -> ~ P x -> (length (filter P l) < length l)%nat.
Proof.
  induction l as [| y l IH]; [by intros ?%elem_of_nil |].
  intros Hin Hx. rewrite filter_cons. pose proof (length_filter P l) as Hle.
  destruct (decide (P y)) as [Hy | Hy]; cbn [length].
  - apply elem_of_cons in Hin as [-> | Hin]; [done |]. specialize (IH Hin Hx). lia.
  - lia.
Qed.

(** X24. A batch that comes through the Normalizer while one whitelisted
    field occurs in none of its records gives a frame of fewer than eleven
    columns, and the Sink refuses it whole: the driver runs out of values
    for the placeholders, the load raises an IndexError and the store stays
    as it was. *)
Theorem pipeline_missing_field_refused (utcnow : timestamp) (r : record) (rs : list record)
    (df : DataFrame) (k : string) (s : Sink.store) (elapsed : Q) :
  markets_to_dataframe utcnow (r :: rs) = Ok df ->
  k ∈ keep.*1 ->
  (forall r', r' ∈ r :: rs -> k ∉ r'.*1) ->
  (length (columns df) < 11)%nat /\
  exists msg, Sink.load_to_postgres s df elapsed = (s, Raise (IndexError msg)).
Proof.
  intros Hrun Hkeep Hnone.
  assert (Hwidth : (length (columns df) < 11)%nat).
  { rewrite (normalized_columns _ _ _ _ Hrun), length_app, length_fmap. cbn [length].
    unfold present_of.
    pose proof (length_filter_lt (fun c => c ∈ columns (json_normalize (r :: rs)))
                  keep.*1 k Hkeep) as Hlt.
    change (length keep.*1) with 10%nat in Hlt.
    assert (Hnin : k ∉ columns (json_normalize (r :: rs)));
      [| specialize (Hlt Hnin); cbn beta in Hlt; lia].
    intros (r' & Hr' & Hk)%columns_json_normalize. by apply (Hnone r'). }
  split; [done |].
  apply markets_to_dataframe_inv in Hrun as Hidx. destruct Hidx as (df5 & Hidx & Hdf).
  assert (Hpos : (0 < index df)%nat) by (rewrite Hdf; cbn [setitem index length] in *; lia).
  unfold Sink.load_to_postgres.
  pose proof (length_prepare_rows df) as Hlen.
  pose proof (prepare_rows_width df) as Hw.
  destruct (Sink.prepare_rows df) as [| p rows]; [cbn in Hlen; lia |].
  specialize (Hw p ltac:(by left)).
  assert (Hmog : Sink.mogrify p = Raise (IndexError "tuple index out of range")).
  { unfold Sink.mogrify. rewrite Hw. change (length Sink.insert_columns) with 11%nat.
    by destruct (Nat.ltb_spec (length (columns df)) 11); [| lia]. }
  eexists. destruct (Sink.relations s !! "crypto_prices") as [rel |].
  - cbn [Sink.executemany]. by rewrite Hmog.
  - by rewrite Hmog.
Qed.

End PipelineFacts.


(** ** The whole run *)

Section MainFacts.
Import Fetcher Pandas Normalizer Sink Main.
Context `{Scalars}.

Ltac bind_raise H E :=
  lazymatch type of H with
  | mbind _ ?r = Raise _ =>
      destruct r eqn:E; unfold mbind at 1, result_bind at 1 in H; cbv beta iota in H
  end.

Lemma coerce_numeric_raises (k : string) (df : DataFrame) (e : exn) :
  coerce_numeric k df = Raise e -> e = KeyError k.
Proof.
  unfold coerce_numeric, getitem.
  destruct (lookup_column k (data df)); cbn; [discriminate | by intros [= <-]].
Qed.

Lemma coerce_datetime_raises (k : string) (df : DataFrame) (e : exn) :
  coerce_datetime k df = Raise e -> e = KeyError k.
Proof.
  unfold coerce_datetime, getitem.
  destruct (lookup_column k (data df)); cbn; [discriminate | by intros [= <-]].
Qed.

(** The only exception of the Normalizer is the KeyError of lines 102-108. *)
Lemma normalize_raises (utcnow : timestamp) (records : list record) (e : exn) :
  markets_to_dataframe utcnow records = Raise e -> exists key, e = KeyError key.
Proof.
  destruct records as [| r rs]; [discriminate |].
  rewrite markets_to_dataframe_cons. unfold coerced. intros Hrun.
  bind_raise Hrun E1; [| apply coerce_numeric_raises in E1; injection Hrun as <-; eauto].
  bind_raise Hrun E2; [| apply coerce_numeric_raises in E2; injection Hrun as <-; eauto].
  bind_raise Hrun E3; [| apply coerce_numeric_raises in E3; injection Hrun as <-; eauto].
  bind_raise Hrun E4; [| apply coerce_numeric_raises in E4; injection Hrun as <-; eauto].
  bind_raise Hrun E5; [discriminate |].
  match type of E5 with
  | (if ?d then _ else _) = _ => destruct d; [| discriminate]
  end.
  apply coerce_datetime_raises in E5. injection Hrun as <-. eauto.
Qed.

Lemma normalized_index (utcnow : timestamp) (records : list record) (df : DataFrame) :
  markets_to_dataframe utcnow records = Ok df -> index df = length records.
Proof.
  destruct records as [| r rs]; [by intros [= <-] |].
  intros (df5 & Hidx & ->)%markets_to_dataframe_inv. done.
Qed.

(** What a load does to the store: nothing, or a new value for
    [crypto_prices], which was there. *)
Lemma load_store (s : store) (df : DataFrame) (elapsed : Q) :
  (load_to_postgres s df elapsed).1 = s \/
  exists rel rel', relations s !! "crypto_prices" = Some rel /\
    (load_to_postgres s df elapsed).1
    = with_relations s (<["crypto_prices" := rel']> (relations s)).
Proof.
  unfold load_to_postgres. destruct (prepare_rows df) as [| p rows] eqn:Hrows; [by left |].
  destruct (relations s !! "crypto_prices") as [rel |]; [| by left].
  destruct (executemany (accepts s) rel (p :: rows)) as [rel' | e] eqn:Hex; [| by left].
  right. by exists rel, rel'.
Qed.

Lemma load_attempted (s : store) (df : DataFrame) (elapsed : Q) (rep : report) :
  (load_to_postgres s df elapsed).2 = Ok rep -> attempted rep = index df.
Proof.
  unfold load_to_postgres. pose proof (length_prepare_rows df) as Hlen.
  destruct (prepare_rows df) as [| p rows] eqn:Hrows.
  - intros [= <-]. by rewrite <- Hlen.
  - destruct (relations s !! "crypto_prices") as [rel |]; [| by destruct (mogrify p)].
    destruct (executemany (accepts s) rel (p :: rows)); [| done].
    by intros [= <-].
Qed.

(** On the relation of the bootstrap no load stores anything, and a load
    that returns was a load of no row. *)
Lemma load_on_bootstrapped (s : store) (df : DataFrame) (elapsed : Q) :
  relations s !! "crypto_prices" = Some (create_table crypto_prices) ->
  (load_to_postgres s df elapsed).1 = s /\
  forall rep, (load_to_postgres s df elapsed).2 = Ok rep -> attempted rep = 0%nat.
Proof.
  intros Hrel. destruct (index df) as [| n] eqn:Hidx.
  - unfold load_to_postgres. pose proof (length_prepare_rows df) as Hlen.
    destruct (prepare_rows df) as [| p rows]; [| cbn in Hlen; lia].
    split; [done |]. by intros rep [= <-].
  - destruct (load_without_arbiter s _ df Hrel eq_refl ltac:(lia)) as [e He].
    rewrite (He elapsed). split; [done |]. by intros rep [=].
Qed.

Lemma bootstrap_frame (s : store) (n : string) :
  accepts (create_crypto_prices_table s).1 = accepts s /\
  (n <> "crypto_prices" ->
   relations (create_crypto_prices_table s).1 !! n = relations s !! n).
Proof.
  unfold create_crypto_prices_table, create_all. cbn [foldl fst].
  change (tablename crypto_prices) with "crypto_prices".
  destruct (relations s !! "crypto_prices"); [done |].
  cbn [with_relations relations accepts]. split; [done |].
  intros Hn. by rewrite lookup_insert_ne.
Qed.

Lemma transform_and_load_frame (utcnow : timestamp) (elapsed : Q) (s : store)
    (records : option (list record)) (n : string) :
  accepts (transform_and_load utcnow elapsed s records).1 = accepts s /\
  (n <> "crypto_prices" ->
   relations (transform_and_load utcnow elapsed s records).1 !! n = relations s !! n).
Proof.
  unfold transform_and_load.
  destruct (markets_to_dataframe utcnow (default [] records)) as [df | e]; [| done].
  destruct (bootstrap_frame s n) as [Hacc Hrel].
  set (s1 := (create_crypto_prices_table s).1) in *.
  destruct (load_store s1 df elapsed) as [-> | (rel & rel' & _ & ->)]; [done |].
  cbn [with_relations relations accepts]. split; [done |].
  intros Hn. rewrite lookup_insert_ne by done. by apply Hrel.
Qed.

Variable sleep_max : Q.
Variable server : request -> nat -> response record.

(** How [main] ends, by how the Fetcher ended. *)
Lemma main_inv (utcnow : timestamp) (elapsed : Q) (s : store) (run : etl) :
  main sleep_max server utcnow elapsed s = Some run ->
  fetch_coingecko_markets sleep_max server markets_request 3 1 = Some (fetched run) /\
  match outcome_of (fetched run) with
  | Raised e => db run = s /\ exit run = Raise e
  | Returned data =>
      db run = (transform_and_load utcnow elapsed s (Some data)).1 /\
      exit run = (transform_and_load utcnow elapsed s (Some data)).2
  | ReturnedNone =>
      db run = (transform_and_load utcnow elapsed s None).1 /\
      exit run = (transform_and_load utcnow elapsed s None).2
  end.
Proof.
  unfold main.
  destruct (fetch_coingecko_markets sleep_max server markets_request 3 1) as [r |];
    [| done].
  intros [= <-].
  destruct (outcome_of r) as [data | | e] eqn:Hout;
    cbv zeta; cbn [fetched db exit]; by rewrite Hout.
Qed.

Lemma main_total (utcnow : timestamp) (elapsed : Q) (s : store) :
  exists run, main sleep_max server utcnow elapsed s = Some run.
Proof.
  unfold main.
  destruct (fetch_coingecko_markets_returns sleep_max server markets_request 3 1)
    as [r ->].
  by eexists.
Qed.

(** X25. Every run of [main] comes to an end, after one to three requests
    to the endpoint; the Fetcher never hands it None; and whatever
    happens, the run touches no relation of the store other than
    [crypto_prices]. *)
Theorem main_returns (utcnow : timestamp) (elapsed : Q) (s : store) :
  exists run,
    main sleep_max server utcnow elapsed s = Some run /\
    (1 <= gets (fetched run) <= 3)%nat /\
    outcome_of (fetched run) <> ReturnedNone /\
    accepts (db run) = accepts s /\
    forall n, n <> "crypto_prices" -> relations (db run) !! n = relations s !! n.
Proof.
  destruct (main_total utcnow elapsed s) as [run Hmain].
  exists run. split; [done |].
  apply main_inv in Hmain as [Hrun Hend].
  apply fetch_loop_trace in Hrun as (_ & Hlt & Hle & _ & _ & Hnone).
  assert (Hnot : outcome_of (fetched run) <> ReturnedNone).
  { intros Hout. destruct (Hnone Hout). lia. }
  split_and!; [lia | lia | done | |].
  - destruct (outcome_of (fetched run)) as [data | | e]; [| done |].
    + destruct Hend as [-> _].
      apply (transform_and_load_frame utcnow elapsed s (Some data) "").
    + by destruct Hend as [-> _].
  - intros n Hn. destruct (outcome_of (fetched run)) as [data | | e]; [| done |].
    + destruct Hend as [-> _].
      by apply (transform_and_load_frame utcnow elapsed s (Some data) n).
    + by destruct Hend as [-> _].
Qed.

(** X26. An endpoint that fails three times in a row, on a platform that
    can sleep two seconds: the run ends with the exception of the third
    request, and the store is as it was before the run; the bootstrap has
    not run. *)
Theorem main_fetch_failure (utcnow : timestamp) (elapsed : Q) (s : store) :
  (2 <= sleep_max)%Q ->
  (forall i, (i < 3)%nat -> exists e, attempt_body (server markets_request i) = Raise e) ->
  exists run e,
    main sleep_max server utcnow elapsed s = Some run /\
    attempt_body (server markets_request 2) = Raise e /\
    exit run = Raise e /\
    gets (fetched run) = 3%nat /\
    db run = s.
Proof.
  intros Hmax Hfail.
  assert (Hsleep : forall a, 1 <= a < 3 -> time_sleep sleep_max (1 * inject_Z a) = Ok tt).
  { intros a Ha. apply (time_sleep_within sleep_max 3 1 a); [done | | done].
    eapply Qle_trans; [| exact Hmax]. done. }
  destruct (fetch_loop_failures sleep_max server markets_request 3 1 Hsleep 2 4 0 0%nat [])
    as (r & e & Hrun & He & Hout & Hgets); [lia | lia | lia | |].
  - intros i Hi. apply Hfail. lia.
  - destruct (main_total utcnow elapsed s) as [run Hmain].
    exists run, e. split; [done |].
    apply main_inv in Hmain as [Hrun' Hend].
    change (fetch_loop sleep_max server markets_request 3 1 4 0 0%nat [] = Some (fetched run))
      in Hrun'.
    rewrite Hrun in Hrun'. injection Hrun' as Heq. subst r.
    rewrite Hout in Hend. destruct Hend as [-> ->]. done.
Qed.

(** X27. A batch the Normalizer does not get through: the run ends with
    its KeyError and the store is as it was before the run; the bootstrap
    has not run and no row of the batch is loaded. *)
Theorem main_normalizer_failure (utcnow : timestamp) (elapsed : Q) (s : store)
    (run : etl) (data : list record) (e : exn) :
  main sleep_max server utcnow elapsed s = Some run ->
  outcome_of (fetched run) = Returned data ->
  markets_to_dataframe utcnow data = Raise e ->
  exit run = Raise e /\ db run = s /\ exists key, e = KeyError key.
Proof.
  intros Hmain Hout Hnorm.
  apply main_inv in Hmain as [_ Hend]. rewrite Hout in Hend.
  unfold transform_and_load in Hend. change (default [] (Some data)) with data in Hend. rewrite Hnorm in Hend.
  destruct Hend as [-> ->]. split_and!; [done | done | by eapply normalize_raises].
Qed.

(** X28. The program cannot fill a database it sets up itself.  On a
    schema that has no [crypto_prices] a run never stores a row, whatever
    the endpoint answers: either the run raises, or it fetched no record
    at all and reports 0 rows attempted.  (The table the bootstrap makes
    has no key for the conflict clause of the insert, C3.) *)
Theorem main_fresh_database_stores_nothing (utcnow : timestamp) (elapsed : Q) (s : store) :
  relations s !! "crypto_prices" = None ->
  exists run,
    main sleep_max server utcnow elapsed s = Some run /\
    (forall key, persisted (db run) key = []) /\
    (forall rep, exit run = Ok rep ->
       attempted rep = 0%nat /\ outcome_of (fetched run) = Returned []).
Proof.
  intros Hnone. destruct (main_total utcnow elapsed s) as [run Hmain].
  exists run. split; [done |].
  apply main_inv in Hmain as [Hrun Hend].
  apply fetch_loop_trace in Hrun as (_ & _ & _ & _ & _ & Hnever).
  assert (Hs : forall key, persisted s key = []).
  { intros key. unfold persisted. by rewrite Hnone. }
  destruct (outcome_of (fetched run)) as [data | | e].
  - unfold transform_and_load in Hend. change (default [] (Some data)) with data in Hend.
    destruct (markets_to_dataframe utcnow data) as [df | e] eqn:Hnorm.
    + pose proof (bootstrap_fresh s Hnone) as Hrel.
      destruct (load_on_bootstrapped _ df elapsed Hrel) as [Hdb Hrep].
      destruct Hend as [-> ->]. rewrite Hdb. split.
      * intros key. unfold persisted. by rewrite Hrel.
      * intros rep Hok. pose proof (Hrep rep Hok) as H0. split; [done |].
        apply load_attempted in Hok. apply normalized_index in Hnorm.
        destruct data; [done |]. cbn in Hnorm. lia.
    + destruct Hend as [-> ->]. split; [done | by intros rep [=]].
  - destruct (Hnever eq_refl). lia.
  - destruct Hend as [-> ->]. split; [done | by intros rep [=]].
Qed.

(** X29. A run that ends well fetched a list, reports as many rows
    attempted as the list has records, and leaves a store that has the
    [crypto_prices] table. *)
Theorem main_success_counts_records (utcnow : timestamp) (elapsed : Q) (s : store)
    (run : etl) (rep : report) :
  main sleep_max server utcnow elapsed s = Some run ->
  exit run = Ok rep ->
  exists data,
    outcome_of (fetched run) = Returned data /\
    attempted rep = length data /\
    is_Some (relations (db run) !! "crypto_prices").
Proof.
  intros Hmain Hok.
  apply main_inv in Hmain as [Hrun Hend].
  apply fetch_loop_trace in Hrun as (_ & _ & _ & _ & _ & Hnever).
  destruct (outcome_of (fetched run)) as [data | | e].
  - exists data. split; [done |].
    unfold transform_and_load in Hend. change (default [] (Some data)) with data in Hend.
    destruct (markets_to_dataframe utcnow data) as [df | e] eqn:Hnorm.
    + destruct Hend as [Hdb Hexit]. rewrite Hexit in Hok. split.
      * apply load_attempted in Hok. apply normalized_index in Hnorm. congruence.
      * rewrite Hdb. destruct (bootstrap_relation s) as (rel & Hrel & _).
        destruct (load_store (create_crypto_prices_table s).1 df elapsed)
          as [-> | (rel0 & rel' & _ & ->)]; [by eexists |].
        cbn [with_relations relations]. rewrite lookup_insert_eq. by eexists.
    + destruct Hend as [_ Hexit]. cbn in Hexit. congruence.
  - destruct (Hnever eq_refl). lia.
  - destruct Hend as [_ Hexit]. congruence.
Qed.

End MainFacts.

(** * The properties on the sample data *)

Import (hints) Samples.

(** The frame of the two sample records at clock reading 1704070800. *)
Lemma load_timestamp_uniform_witness :
  Pandas.index Samples.frame = length [Samples.bitcoin; Samples.ethereum] /\
  forall row, row ∈ Pandas.itertuples Samples.frame ->
    Pandas.field "load_timestamp" (Pandas.columns Samples.frame) row
    = Some (Pandas.Ts 1704070800) /\
    Pandas.isna (Pandas.Ts 1704070800) = false.
Proof.
  apply (@load_timestamp_uniform Samples.whole 1704070800
           [Samples.bitcoin; Samples.ethereum] Samples.frame).
  reflexivity.
Defined.

(** The second sample row has no market_cap: None goes to the Sink. *)
Lemma prepare_rows_nulls_witness :
  exists row,
    Sink.prepare_rows Samples.frame !! 1%nat = Some row /\
    length row = length (Pandas.columns Samples.frame) /\
    Pandas.field "market_cap" (Pandas.columns Samples.frame) row
    = Some (if Pandas.isna Pandas.NaN then Pandas.PyNone else Pandas.NaN) /\
    (Pandas.isna Pandas.NaN = true ->
     Pandas.field "market_cap" (Pandas.columns Samples.frame) row = Some Pandas.PyNone) /\
    (Pandas.isna Pandas.NaN = false ->
     Pandas.field "market_cap" (Pandas.columns Samples.frame) row = Some Pandas.NaN).
Proof.
  apply (@prepare_rows_nulls Samples.whole Samples.frame "market_cap"
           [Pandas.Num (1280000000000 : @number Samples.whole); Pandas.NaN] 1 Pandas.NaN);
    [reflexivity | simpl; lia | reflexivity].
Defined.


(** C4, as the spec words it, fails: on an endpoint that never answers, one
    allowed attempt, the attempts all fail and what the call raises is the
    RequestException of the attempt, not a FetchError around it. *)
Lemma fetch_exhausted_not_FetchError :
  (forall i, (i < Z.to_nat 1)%nat ->
     exists e, Fetcher.attempt_body (FetcherSamples.down FetcherSamples.req0 i) = Raise e)
  /\
  ~ (exists r cause,
        Fetcher.fetch_coingecko_markets FetcherSamples.clock_max FetcherSamples.down
          FetcherSamples.req0 1 1 = Some r /\
        Fetcher.outcome_of r = Fetcher.Raised (FetchError cause)).
Proof.
  split.
  - intros i _. eexists. reflexivity.
  - intros (r & cause & Hrun & Hout).
    vm_compute in Hrun. injection Hrun as <-. discriminate Hout.
Qed.

(** Two allowed attempts on the flaky endpoint: the ValueError of the
    second attempt is what the call raises. *)
Lemma fetch_exhausted_reraises_last_witness :
  exists r e,
    Fetcher.fetch_coingecko_markets FetcherSamples.clock_max FetcherSamples.flaky
      FetcherSamples.req0 2 1 = Some r /\
    Fetcher.attempt_body (FetcherSamples.flaky FetcherSamples.req0 (Z.to_nat 2 - 1)) = Raise e /\
    Fetcher.outcome_of r = Fetcher.Raised e /\
    forall cause, e <> FetchError cause.
Proof.
  apply (fetch_exhausted_reraises_last FetcherSamples.clock_max FetcherSamples.flaky
           FetcherSamples.req0 2 1); [lia | done | done |].
  intros [| [| i]] Hi; try (eexists; reflexivity). simpl in Hi. lia.
Defined.

(** No allowed attempt. *)
Lemma fetch_no_attempts_returns_None_witness :
  Fetcher.fetch_coingecko_markets FetcherSamples.clock_max FetcherSamples.flaky
    FetcherSamples.req0 0 1
  = Some {| Fetcher.outcome_of := Fetcher.ReturnedNone; Fetcher.gets := 0;
            Fetcher.trace := [] |}.
Proof.
  apply (fetch_no_attempts_returns_None FetcherSamples.clock_max FetcherSamples.flaky
           FetcherSamples.req0 0 1). lia.
Defined.

(** Three allowed attempts on the flaky endpoint. *)
Lemma fetch_positive_never_None_witness :
  exists r,
    Fetcher.fetch_coingecko_markets FetcherSamples.clock_max FetcherSamples.flaky
      FetcherSamples.req0 3 1 = Some r /\
    (1 <= Fetcher.gets r)%nat /\
    Fetcher.outcome_of r <> Fetcher.ReturnedNone.
Proof.
  apply (fetch_positive_never_None FetcherSamples.clock_max FetcherSamples.flaky
           FetcherSamples.req0 3 1). lia.
Defined.

(** Three allowed attempts and a backoff of minus one second on the flaky
    endpoint: the 503 of the first request is followed by the ValueError of
    [sleep(-1)], and no second request is sent. *)
Lemma fetch_negative_backoff_raises_witness :
  exists r msg,
    Fetcher.fetch_coingecko_markets FetcherSamples.clock_max FetcherSamples.flaky
      FetcherSamples.req0 3 (-1) = Some r /\
    Fetcher.outcome_of r = Fetcher.Raised (ValueError msg) /\
    Fetcher.gets r = 1%nat.
Proof.
  apply (fetch_negative_backoff_raises FetcherSamples.clock_max FetcherSamples.flaky
           FetcherSamples.req0 3 (-1) (HTTPError 503)); [lia | done | done | reflexivity].
Defined.

(** The sample frame loaded into the keyed, empty relation. *)
Lemma load_appends_only_witness :
  let s' := (Sink.load_to_postgres Samples.keyed_store Samples.frame 1).1 in
  Sink.attempted {| Sink.attempted := 2; Sink.elapsed_s := 1 |} = Pandas.index Samples.frame /\
  Sink.accepts s' = Sink.accepts Samples.keyed_store /\
  (forall n, n <> "crypto_prices" ->
             Sink.relations s' !! n = Sink.relations Samples.keyed_store !! n) /\
  (forall rel, Sink.relations Samples.keyed_store !! "crypto_prices" = Some rel ->
     exists rel' extra,
       Sink.relations s' !! "crypto_prices" = Some rel' /\
       Sink.rel_columns rel' = Sink.rel_columns rel /\
       Sink.rel_key rel' = Sink.rel_key rel /\
       Sink.rel_rows rel' = Sink.rel_rows rel ++ extra /\
       (length extra <= Pandas.index Samples.frame)%nat).
Proof.
  apply (@load_appends_only Samples.whole Samples.keyed_store
           (Sink.load_to_postgres Samples.keyed_store Samples.frame 1).1
           Samples.frame 1 {| Sink.attempted := 2; Sink.elapsed_s := 1 |}).
  reflexivity.
Defined.

Lemma load_preserves_unique_keys_witness :
  Sink.unique_keys (Sink.load_to_postgres Samples.keyed_store Samples.frame 1).1.
Proof.
  apply (@load_preserves_unique_keys Samples.whole Samples.keyed_store
           (Sink.load_to_postgres Samples.keyed_store Samples.frame 1).1
           Samples.frame 1 (Sink.load_to_postgres Samples.keyed_store Samples.frame 1).2).
  - intros rel Hrel _. unfold Samples.keyed_store in Hrel. cbn [Sink.relations] in Hrel.
    rewrite lookup_singleton_eq in Hrel. injection Hrel as <-. apply NoDup_nil_2.
  - reflexivity.
Defined.

(** The empty frame, on a schema without the table. *)
Lemma load_no_rows_noop_witness :
  Sink.load_to_postgres MoreSamples.fresh_store Pandas.DataFrame_empty 1
  = (MoreSamples.fresh_store, Ok {| Sink.attempted := 0; Sink.elapsed_s := 0 |}).
Proof.
  apply (@load_no_rows_noop Samples.whole MoreSamples.fresh_store Pandas.DataFrame_empty 1).
  reflexivity.
Defined.

(** A frame of two columns, on the keyed relation. *)
Lemma load_wrong_width_refused_witness :
  exists e,
    Sink.load_to_postgres Samples.keyed_store MoreSamples.narrow 1
    = (Samples.keyed_store, Raise e) /\
    ((length (Pandas.columns MoreSamples.narrow) < 11)%nat -> exists msg, e = IndexError msg) /\
    ((11 < length (Pandas.columns MoreSamples.narrow))%nat -> exists msg, e = TypeError msg).
Proof.
  apply (@load_wrong_width_refused Samples.whole Samples.keyed_store MoreSamples.narrow 1).
  - simpl. lia.
  - simpl. lia.
Defined.

(** The second row has no [coin_id]: nothing is stored, not even the first
    row. *)
Lemma load_null_coin_id_refused_witness :
  exists e,
    Sink.load_to_postgres Samples.keyed_store MoreSamples.nameless 1
    = (Samples.keyed_store, Raise e).
Proof.
  apply (@load_null_coin_id_refused Samples.whole Samples.keyed_store MoreSamples.nameless 1
           (default [] (Sink.prepare_rows MoreSamples.nameless !! 1%nat))).
  - apply list_elem_of_lookup. exists 1%nat. reflexivity.
  - reflexivity.
Defined.

(** Both sample rows are new to the empty relation. *)
Lemma load_fresh_keys_all_stored_witness :
  exists rel',
    Sink.relations (Sink.load_to_postgres Samples.keyed_store Samples.frame 1).1
      !! "crypto_prices" = Some rel' /\
    Sink.rel_rows rel'
    = Sink.rel_rows (Sink.create_table Samples.keyed)
      ++ (Sink.new_row (Sink.rel_columns (Sink.create_table Samples.keyed))
            <$> Sink.prepare_rows Samples.frame).
Proof.
  apply (@load_fresh_keys_all_stored Samples.whole Samples.keyed_store
           (Sink.load_to_postgres Samples.keyed_store Samples.frame 1).1
           Samples.frame 1 {| Sink.attempted := 2; Sink.elapsed_s := 1 |}
           (Sink.create_table Samples.keyed)).
  - reflexivity.
  - apply lookup_singleton_eq.
  - compute_done.
  - intros p _ Hin. change (Sink.keys (Sink.create_table Samples.keyed)) with (@nil (list Pandas.cell)) in Hin.
    by apply elem_of_nil in Hin.
Defined.

(** The sample frame is loaded into the keyed relation, then the same
    keys come again with other prices: the stored rows keep theirs. *)
Lemma load_stored_keys_changes_nothing_witness :
  (Sink.load_to_postgres (Sink.load_to_postgres Samples.keyed_store Samples.frame 1).1
     MoreSamples.repriced 2).1
  = (Sink.load_to_postgres Samples.keyed_store Samples.frame 1).1 /\
  Sink.attempted {| Sink.attempted := 2; Sink.elapsed_s := 2 |}
  = Pandas.index MoreSamples.repriced.
Proof.
  apply (@load_stored_keys_changes_nothing Samples.whole
           (Sink.load_to_postgres Samples.keyed_store Samples.frame 1).1
           (Sink.load_to_postgres (Sink.load_to_postgres Samples.keyed_store Samples.frame 1).1
              MoreSamples.repriced 2).1
           MoreSamples.repriced 2 {| Sink.attempted := 2; Sink.elapsed_s := 2 |}
           {| Sink.rel_columns := Sink.rel_columns (Sink.create_table Samples.keyed);
              Sink.rel_key := Sink.rel_key (Sink.create_table Samples.keyed);
              Sink.rel_rows := Sink.new_row (Sink.rel_columns (Sink.create_table Samples.keyed))
                                 <$> Sink.prepare_rows Samples.frame |}).
  - reflexivity.
  - apply Forall_forall. compute_done.
  - reflexivity.
Defined.

(** The sample frame, after the bootstrap of an empty schema. *)
Lemma load_after_bootstrap_raises_witness :
  (exists e,
      Sink.load_to_postgres
        (Sink.create_crypto_prices_table MoreSamples.fresh_store).1 Samples.frame 1
      = ((Sink.create_crypto_prices_table MoreSamples.fresh_store).1, Raise e)) /\
  (forall key,
      Sink.persisted (Sink.create_crypto_prices_table MoreSamples.fresh_store).1 key = []).
Proof.
  apply (@load_after_bootstrap_raises Samples.whole Samples.pg_accepts Samples.frame 1).
  simpl. lia.
Defined.

(** The sample frame loaded twice after the bootstrap of an empty schema:
    both calls raise, and no row is stored. *)
Lemma load_twice_after_bootstrap_stores_nothing_witness :
  exists e,
    Sink.load_to_postgres
      (Sink.create_crypto_prices_table MoreSamples.fresh_store).1 Samples.frame 1
    = ((Sink.create_crypto_prices_table MoreSamples.fresh_store).1, Raise e) /\
    Sink.load_to_postgres
      (Sink.create_crypto_prices_table MoreSamples.fresh_store).1 Samples.frame 2
    = ((Sink.create_crypto_prices_table MoreSamples.fresh_store).1, Raise e) /\
    forall key,
      Sink.persisted (Sink.create_crypto_prices_table MoreSamples.fresh_store).1 key = [].
Proof.
  apply (@load_twice_after_bootstrap_stores_nothing Samples.whole MoreSamples.fresh_store
           Samples.frame 1 2).
  - apply lookup_empty.
  - simpl. lia.
Defined.

(** The sample batch with a record that has no [id]. *)
Lemma null_coin_id_reaches_sink_witness :
  (exists row,
      Sink.prepare_rows MoreSamples.nameless !! 1%nat = Some row /\
      Pandas.field "coin_id" (Pandas.columns MoreSamples.nameless) row = Some Pandas.PyNone) /\
  Sink.nullable <$> head (Sink.c Sink.crypto_prices) = Some false.
Proof.
  apply (@null_coin_id_reaches_sink Samples.whole 1704070800
           [Samples.bitcoin; MoreSamples.anonymous] MoreSamples.nameless 1
           MoreSamples.anonymous).
  - reflexivity.
  - compute_done.
  - reflexivity.
  - reflexivity.
Defined.

(** The columns of the frame of the two sample records. *)
Lemma normalize_columns_witness :
  Pandas.columns Samples.frame
  = (Normalizer.renamed <$> Normalizer.present_of [Samples.bitcoin; Samples.ethereum])
    ++ ["load_timestamp"] /\
  Pandas.columns Samples.frame ⊆ Sink.insert_columns.
Proof.
  apply (@normalize_columns Samples.whole 1704070800 Samples.bitcoin [Samples.ethereum]
           Samples.frame).
  reflexivity.
Defined.

Lemma normalize_one_row_per_record_witness :
  Pandas.index Samples.frame = length [Samples.bitcoin; Samples.ethereum] /\
  Forall (fun c : string * list Pandas.cell =>
            length c.2 = length [Samples.bitcoin; Samples.ethereum])
         (Pandas.data Samples.frame) /\
  length (Sink.prepare_rows Samples.frame) = length [Samples.bitcoin; Samples.ethereum].
Proof.
  apply (@normalize_one_row_per_record Samples.whole 1704070800
           [Samples.bitcoin; Samples.ethereum] Samples.frame).
  reflexivity.
Defined.

(** The prices of the sample frame: the text "65000" of the first record
    has become a number. *)
Lemma normalize_coerced_cells_witness :
  ("current_price" ∈ Normalizer.numeric_columns ->
   Forall (fun v => v = Pandas.NaN \/ exists n, v = Pandas.Num n)
          [Pandas.Num (65000 : @number Samples.whole); Pandas.Num 3500]) /\
  ("current_price" = "last_updated" ->
   Forall (fun v => v = Pandas.NaT \/ exists t, v = Pandas.Ts t)
          [Pandas.Num (65000 : @number Samples.whole); Pandas.Num 3500]).
Proof.
  apply (@normalize_coerced_cells Samples.whole 1704070800
           [Samples.bitcoin; Samples.ethereum] Samples.frame "current_price").
  - reflexivity.
  - reflexivity.
Defined.

(** The 24h change of the first sample record is the text "n/a": the Sink
    gets None for it. *)
Lemma pipeline_row_values_witness :
  exists row,
    Sink.prepare_rows Samples.frame !! 0%nat = Some row /\
    Pandas.field "pct_change_24h" (Pandas.columns Samples.frame) row
    = Some (let v := Normalizer.coerce_cell "pct_change_24h"
                       (Normalizer.raw "price_change_percentage_24h" Samples.bitcoin) in
            if Pandas.isna v then Pandas.PyNone else v).
Proof.
  apply (@pipeline_row_values Samples.whole 1704070800
           [Samples.bitcoin; Samples.ethereum] Samples.frame
           "price_change_percentage_24h" "pct_change_24h" 0 Samples.bitcoin).
  - reflexivity.
  - compute_done.
  - compute_done.
  - reflexivity.
Defined.

(** A record with the four numeric fields only: five columns, refused. *)
Lemma pipeline_missing_field_refused_witness :
  (length (Pandas.columns MoreSamples.priced_frame) < 11)%nat /\
  exists msg,
    Sink.load_to_postgres Samples.keyed_store MoreSamples.priced_frame 1
    = (Samples.keyed_store, Raise (IndexError msg)).
Proof.
  apply (@pipeline_missing_field_refused Samples.whole 1704070800 MoreSamples.priced []
           MoreSamples.priced_frame "id" Samples.keyed_store 1).
  - reflexivity.
  - compute_done.
  - intros r' ->%list_elem_of_singleton. compute_done.
Defined.

(** A run against an endpoint that is down. *)
Lemma main_fetch_failure_witness :
  exists run e,
    Main.main FetcherSamples.clock_max MoreSamples.outage 1704070800 1 MoreSamples.fresh_store
    = Some run /\
    Fetcher.attempt_body (MoreSamples.outage Main.markets_request 2) = Raise e /\
    Main.exit run = Raise e /\
    Fetcher.gets (Main.fetched run) = 3%nat /\
    Main.db run = MoreSamples.fresh_store.
Proof.
  apply (@main_fetch_failure Samples.whole FetcherSamples.clock_max MoreSamples.outage
           1704070800 1 MoreSamples.fresh_store).
  - done.
  - intros i _. eexists. reflexivity.
Defined.

(** A run against an endpoint that answers with the second sample record
    only, which has no market_cap. *)
Lemma main_normalizer_failure_witness :
  Main.exit
    {| Main.fetched :=
         {| Fetcher.outcome_of := Fetcher.Returned [Samples.ethereum];
            Fetcher.gets := 1;
            Fetcher.trace := [Fetcher.LogFetching 1 250 1; Fetcher.Get Main.markets_request;
                              Fetcher.LogFetched 1] |};
       Main.db := MoreSamples.fresh_store;
       Main.exit := Raise (KeyError "market_cap") |}
  = Raise (KeyError "market_cap") /\
  Main.db
    {| Main.fetched :=
         {| Fetcher.outcome_of := Fetcher.Returned [Samples.ethereum];
            Fetcher.gets := 1;
            Fetcher.trace := [Fetcher.LogFetching 1 250 1; Fetcher.Get Main.markets_request;
                              Fetcher.LogFetched 1] |};
       Main.db := MoreSamples.fresh_store;
       Main.exit := Raise (KeyError "market_cap") |}
  = MoreSamples.fresh_store /\
  exists key, KeyError "market_cap" = KeyError key.
Proof.
  apply (@main_normalizer_failure Samples.whole FetcherSamples.clock_max
           MoreSamples.thin_market 1704070800 1 MoreSamples.fresh_store
           {| Main.fetched :=
                {| Fetcher.outcome_of := Fetcher.Returned [Samples.ethereum];
                   Fetcher.gets := 1;
                   Fetcher.trace := [Fetcher.LogFetching 1 250 1;
                                     Fetcher.Get Main.markets_request;
                                     Fetcher.LogFetched 1] |};
              Main.db := MoreSamples.fresh_store;
              Main.exit := Raise (KeyError "market_cap") |}
           [Samples.ethereum] (KeyError "market_cap")).
  - reflexivity.
  - reflexivity.
  - reflexivity.
Defined.

(** A run against an endpoint that answers with the two sample records, on
    a schema without the table. *)
Lemma main_fresh_database_stores_nothing_witness :
  exists run,
    Main.main FetcherSamples.clock_max MoreSamples.market 1704070800 1 MoreSamples.fresh_store
    = Some run /\
    (forall key, Sink.persisted (Main.db run) key = []) /\
    (forall rep, Main.exit run = Ok rep ->
       Sink.attempted rep = 0%nat /\
       Fetcher.outcome_of (Main.fetched run) = Fetcher.Returned []).
Proof.
  apply (@main_fresh_database_stores_nothing Samples.whole FetcherSamples.clock_max
           MoreSamples.market 1704070800 1 MoreSamples.fresh_store).
  apply lookup_empty.
Defined.

(** The same endpoint, on a schema whose table has the key. *)
Lemma main_success_counts_records_witness :
  exists data,
    Fetcher.outcome_of
      {| Fetcher.outcome_of := Fetcher.Returned [Samples.bitcoin; Samples.ethereum];
         Fetcher.gets := 1;
         Fetcher.trace := [Fetcher.LogFetching 1 250 1; Fetcher.Get Main.markets_request;
                           Fetcher.LogFetched 2] |}
    = Fetcher.Returned data /\
    Sink.attempted {| Sink.attempted := 2; Sink.elapsed_s := 1 |} = length data /\
    is_Some (Sink.relations (Sink.load_to_postgres Samples.keyed_store Samples.frame 1).1
               !! "crypto_prices").
Proof.
  apply (@main_success_counts_records Samples.whole FetcherSamples.clock_max
           MoreSamples.market 1704070800 1 Samples.keyed_store
           {| Main.fetched :=
                {| Fetcher.outcome_of := Fetcher.Returned [Samples.bitcoin; Samples.ethereum];
                   Fetcher.gets := 1;
                   Fetcher.trace := [Fetcher.LogFetching 1 250 1;
                                     Fetcher.Get Main.markets_request;
                                     Fetcher.LogFetched 2] |};
              Main.db := (Sink.load_to_postgres Samples.keyed_store Samples.frame 1).1;
              Main.exit := Ok {| Sink.attempted := 2; Sink.elapsed_s := 1 |} |}
           {| Sink.attempted := 2; Sink.elapsed_s := 1 |}).
  - reflexivity.
  - reflexivity.
Defined.
